(** * nytcampfin: a shallow embedding of the NYT Campaign Finance client

    The development follows [nytcampfin.py]: Python values and the
    built-in operations the client relies on, the exception classes, the
    [Client.fetch] method, the three topic clients and the facade. *)

From Stdlib Require Import ZArith String Ascii List Bool.
From Stdlib Require Import Floats.SpecFloat.
From stdpp Require Import base option gmap strings list pretty.

Local Open Scope Z_scope.
Local Open Scope string_scope.

(** ** Python values *)

Set Warnings "-register-all".

(** Decoded JSON and the plain data a caller hands to the client.  Dict
    keys are strings (JSON objects); a dict keeps its entries in iteration
    order. *)
Inductive pyval : Type :=
| PNone
| PBool (b : bool)
| PInt (z : Z)
| PFloat (f : spec_float)
| PStr (s : string)
| PList (l : list pyval)
| PDict (d : list (string * pyval)).

(** ** Exceptions *)

Inductive exn : Type :=
| KeyError (k : pyval)
| IndexError
| TypeError
| ValueError
| AttributeError
| NytCampfinError (msg : string)
| NytNotFoundError (msg : string)
| OtherError (name : string).

(** The classes of the exception objects, with the base class each
    [class] statement names. *)
Inductive exn_class : Type :=
| C_BaseException
| C_Exception
| C_LookupError
| C_KeyError
| C_IndexError
| C_TypeError
| C_ValueError
| C_AttributeError
| C_NytCampfinError
| C_NytNotFoundError
| C_Other (name : string).

Definition class_of (e : exn) : exn_class :=
  match e with
  | KeyError _ => C_KeyError
  | IndexError => C_IndexError
  | TypeError => C_TypeError
  | ValueError => C_ValueError
  | AttributeError => C_AttributeError
  | NytCampfinError _ => C_NytCampfinError
  | NytNotFoundError _ => C_NytNotFoundError
  | OtherError n => C_Other n
  end.

(** [class NytCampfinError(Exception)] and
    [class NytNotFoundError(NytCampfinError)]; the built-in classes have
    their usual bases. *)
Definition base_class (c : exn_class) : option exn_class :=
  match c with
  | C_BaseException => None
  | C_Exception => Some C_BaseException
  | C_LookupError => Some C_Exception
  | C_KeyError => Some C_LookupError
  | C_IndexError => Some C_LookupError
  | C_TypeError => Some C_Exception
  | C_ValueError => Some C_Exception
  | C_AttributeError => Some C_Exception
  | C_NytCampfinError => Some C_Exception
  | C_NytNotFoundError => Some C_NytCampfinError
  | C_Other _ => Some C_Exception
  end.

Definition exn_class_eqb (c d : exn_class) : bool :=
  match c, d with
  | C_BaseException, C_BaseException
  | C_Exception, C_Exception
  | C_LookupError, C_LookupError
  | C_KeyError, C_KeyError
  | C_IndexError, C_IndexError
  | C_TypeError, C_TypeError
  | C_ValueError, C_ValueError
  | C_AttributeError, C_AttributeError
  | C_NytCampfinError, C_NytCampfinError
  | C_NytNotFoundError, C_NytNotFoundError => true
  | C_Other n, C_Other m => String.eqb n m
  | _, _ => false
  end.

(** [issubclass c d]: walk up the chain of bases from [c]; no chain is
    longer than four links. *)
Fixpoint issubclass_fuel (fuel : nat) (c d : exn_class) : bool :=
  exn_class_eqb c d ||
  match fuel with
  | O => false
  | S fuel' =>
      match base_class c with
      | Some b => issubclass_fuel fuel' b d
      | None => false
      end
  end.

Definition issubclass (c d : exn_class) : bool := issubclass_fuel 4 c d.

(** An [except handler:] clause catches [e] when the class of [e] is a
    subclass of [handler]. *)
Definition catches (handler : exn_class) (e : exn) : bool :=
  issubclass (class_of e) handler.

(** ** Outcomes: a value returned or an exception raised *)

Inductive outcome (A : Type) : Type :=
| Return (a : A)
| Raise (e : exn).
Arguments Return {A} a.
Arguments Raise {A} e.

#[global] Instance outcome_ret : MRet outcome := fun A a => Return a.
#[global] Instance outcome_bind : MBind outcome := fun A B k m =>
  match m with
  | Return a => k a
  | Raise e => Raise e
  end.

#[global] Instance outcome_fmap : FMap outcome := fun A B f m =>
  match m with
  | Return a => Return (f a)
  | Raise e => Raise e
  end.

(** [try: m except handler, e: h e] *)
Definition try_except {A} (m : outcome A) (handler : exn_class)
    (h : exn -> outcome A) : outcome A :=
  match m with
  | Return a => Return a
  | Raise e => if catches handler e then h e else Raise e
  end.

(** ** Built-in operations on values *)

(** Truth value testing, as [not x] and [if x:] use it. *)
Definition py_truthy (v : pyval) : bool :=
  match v with
  | PNone => false
  | PBool b => b
  | PInt z => negb (z =? 0)%Z
  | PFloat f => match f with S754_zero _ => false | _ => true end
  | PStr s => negb (String.eqb s "")
  | PList l => match l with [] => false | _ => true end
  | PDict d => match d with [] => false | _ => true end
  end.

(** Dict entries: lookup, and assignment keeping the position of an
    existing key. *)
Fixpoint assoc_lookup (k : string) (d : list (string * pyval)) : option pyval :=
  match d with
  | [] => None
  | (k', v) :: d' => if String.eqb k k' then Some v else assoc_lookup k d'
  end.

Fixpoint assoc_set (k : string) (v : pyval) (d : list (string * pyval))
    : list (string * pyval) :=
  match d with
  | [] => [(k, v)]
  | (k', v') :: d' =>
      if String.eqb k k' then (k, v) :: d' else (k', v') :: assoc_set k v d'
  end.

(** Sequence indexing with Python's negative indices. *)
Definition seq_index {A} (l : list A) (i : Z) : outcome A :=
  let n := Z.of_nat (length l) in
  let j := if (i <? 0)%Z then i + n else i in
  if (j <? 0)%Z || (n <=? j)%Z then Raise IndexError
  else match nth_error l (Z.to_nat j) with
       | Some a => Return a
       | None => Raise IndexError
       end.

Definition chars (s : string) : list string :=
  map (fun c => String c EmptyString) (list_ascii_of_string s).

(** [o[k]] *)
Definition py_getitem (o k : pyval) : outcome pyval :=
  match o with
  | PDict d =>
      match k with
      | PStr s => match assoc_lookup s d with
                  | Some v => Return v
                  | None => Raise (KeyError k)
                  end
      | PList _ | PDict _ => Raise TypeError
      | _ => Raise (KeyError k)
      end
  | PList l =>
      match k with
      | PInt i => seq_index l i
      | PBool b => seq_index l (if b then 1 else 0)
      | _ => Raise TypeError
      end
  | PStr s =>
      match k with
      | PInt i => PStr <$> seq_index (chars s) i
      | PBool b => PStr <$> seq_index (chars s) (if b then 1 else 0)
      | _ => Raise TypeError
      end
  | _ => Raise TypeError
  end.

(** [o[k] = v] with a string key: only a dict accepts it.  The object is
    updated in place; the updated object is the result. *)
Definition py_setitem (o : pyval) (k : string) (v : pyval) : outcome pyval :=
  match o with
  | PDict d => Return (PDict (assoc_set k v d))
  | _ => Raise TypeError
  end.

(** Iteration, as a generator expression [e for e in o] performs it. *)
Definition py_iter (o : pyval) : outcome (list pyval) :=
  match o with
  | PList l => Return l
  | PStr s => Return (map PStr (chars s))
  | PDict d => Return (map (fun kv => PStr (fst kv)) d)
  | _ => Raise TypeError
  end.

(** [sep.join(items)]: every item has to be a string. *)
Fixpoint all_strings (items : list pyval) : outcome (list string) :=
  match items with
  | [] => Return []
  | PStr s :: rest => ss ← all_strings rest; Return (s :: ss)
  | _ :: _ => Raise TypeError
  end.

Definition py_join (sep : string) (items : list pyval) : outcome string :=
  ss ← all_strings items; Return (String.concat sep ss).

(** [s.lower()] on a byte string: only A-Z change. *)
Definition ascii_lower (c : ascii) : ascii :=
  let n := N_of_ascii c in
  if ((65 <=? n) && (n <=? 90))%N then ascii_of_N (n + 32) else c.

Fixpoint lower (s : string) : string :=
  match s with
  | EmptyString => EmptyString
  | String c s' => String (ascii_lower c) (lower s')
  end.

(** [s.startswith(p)] *)
Fixpoint startswith (s p : string) : bool :=
  match p with
  | EmptyString => true
  | String c p' =>
      match s with
      | EmptyString => false
      | String c' s' => Ascii.eqb c' c && startswith s' p'
      end
  end.

(** ** The environment of a call *)

(** A keyword argument is plain data or a callable. *)
Inductive kwval : Type :=
| KVal (v : pyval)
| KFun (f : pyval -> outcome pyval).

Definition callable (k : kwval) : bool :=
  match k with
  | KFun _ => true
  | KVal _ => false
  end.

Definition kw_truthy (k : kwval) : bool :=
  match k with
  | KFun _ => true
  | KVal v => py_truthy v
  end.

(** [kwargs[k]] *)
Definition kw_getitem (kwargs : gmap string kwval) (k : string) : outcome kwval :=
  match kwargs !! k with
  | Some v => Return v
  | None => Raise (KeyError (PStr k))
  end.

Record request : Type := { url : string; params : gmap string kwval }.

Record response : Type := { status_code : Z; json : pyval }.

(** What the module does not define itself: the [DEBUG] flag as it
    stands at the time of the call, the transport behind [requests.get],
    [str] of floats and containers, and the [%] conversions other than
    [%s] and [%%]. *)
Class Runtime : Type := {
  DEBUG : bool;
  requests_get : string -> gmap string kwval -> outcome response;
  py_repr : pyval -> string;
  format_directive : string -> list pyval -> outcome string
}.

(** Computations that may issue HTTP requests: the requests sent so far
    are threaded through, and survive an exception. *)
Definition io (A : Type) : Type := list request -> outcome A * list request.

#[global] Instance io_ret : MRet io := fun A a sent => (Return a, sent).
#[global] Instance io_bind : MBind io := fun A B k m sent =>
  match m sent with
  | (Return a, sent') => k a sent'
  | (Raise e, sent') => (Raise e, sent')
  end.

Definition lift {A} (o : outcome A) : io A := fun sent => (o, sent).
Definition raise {A} (e : exn) : io A := lift (Raise e).

(** Run a computation from an empty history. *)
Definition run {A} (m : io A) : outcome A * list request := m [].
Definition result_of {A} (m : io A) : outcome A := fst (run m).
Definition sent_by {A} (m : io A) : list request := snd (run m).

Section Builtins.
Context `{Runtime}.

(** [requests.get(url, params=...)] *)
Definition http_get (u : string) (p : gmap string kwval) : io response :=
  fun sent => (requests_get u p, (sent ++ [{| url := u; params := p |}])%list).

(** [str(v)], as [%s] applies it. *)
Definition py_str (v : pyval) : string :=
  match v with
  | PNone => "None"
  | PBool true => "True"
  | PBool false => "False"
  | PInt z => pretty z
  | PStr s => s
  | _ => py_repr v
  end.

(** [fmt % args] with [args] a tuple. *)
Fixpoint py_format (fmt : string) (args : list pyval) : outcome string :=
  match fmt with
  | EmptyString =>
      match args with
      | [] => Return EmptyString
      | _ :: _ => Raise TypeError
      end
  | String "%" rest =>
      match rest with
      | EmptyString => Raise ValueError
      | String "s" rest' =>
          match args with
          | a :: args' => s ← py_format rest' args'; Return (py_str a ++ s)
          | [] => Raise TypeError
          end
      | String "%" rest' => s ← py_format rest' args; Return (String "%" s)
      | _ => format_directive rest args
      end
  | String c rest => s ← py_format rest args; Return (String c s)
  end.
End Builtins.

(** ** Clients *)

Definition CURRENT_CYCLE : pyval := PInt 2012.

(** [lambda r: r['results'][0]] and [lambda r: r['results']] *)
Definition first_of_results (r : pyval) : outcome pyval :=
  rs ← py_getitem r (PStr "results"); py_getitem rs (PInt 0).

Definition all_results (r : pyval) : outcome pyval :=
  py_getitem r (PStr "results").

Module Client.
Record t : Type := { apikey : pyval }.

Definition BASE_URI : string :=
  "http://api.nytimes.com/svc/elections/us/v3/finances".

Section Methods.
Context `{Runtime}.

Definition fetch (self : t) (path : string) (args : list pyval)
    (kwargs : gmap string kwval) : io pyval :=
  offset ← lift (kw_getitem kwargs "offset");
  let kwargs :=
    if negb (kw_truthy offset) then <["offset" := KVal (PInt 0)]> kwargs
    else kwargs in
  let parse := default (KFun first_of_results) (kwargs !! "parse") in
  let kwargs := delete "parse" kwargs in
  let kwargs := <["api-key" := KVal (apikey self)]> kwargs in
  u ← lift (if negb (startswith (lower path) BASE_URI)
            then py_format (BASE_URI ++ (path ++ ".json")) args
            else Return (path ++ "?"));
  resp ← http_get u kwargs;
  if negb ((status_code resp =? 200)%Z || (status_code resp =? 304)%Z) then
    let content := json resp in
    errors ← lift (errs ← py_getitem content (PStr "errors");
                   items ← py_iter errs;
                   py_join "; " items);
    if (status_code resp =? 404)%Z then raise (NytNotFoundError errors)
    else raise (NytCampfinError errors)
  else
    let result := json resp in
    match parse with
    | KFun f =>
        result ← lift (f result);
        if DEBUG then lift (py_setitem result "_url" (PStr u))
        else mret result
    | KVal _ => mret result
    end.
End Methods.
End Client.

(** A parameter with a default value: [None] stands for an argument the
    caller left out. *)
Definition arg_or (d : pyval) (a : option pyval) : pyval := default d a.

(** The keyword arguments every endpoint method passes on:
    [offset=offset, parse=lambda r: r['results']] *)
Definition listing_kwargs (offset : pyval) : gmap string kwval :=
  <["offset" := KVal offset]> (<["parse" := KFun all_results]> ∅).

Module FilingsClient.
Section Methods.
Context `{Runtime}.

Definition today (self : Client.t) (cycle offset : option pyval) : io pyval :=
  let cycle := arg_or CURRENT_CYCLE cycle in
  let offset := arg_or (PInt 0) offset in
  let path := "/%s/filings" in
  Client.fetch self path [cycle] (listing_kwargs offset).

Definition date (self : Client.t) (year month day : pyval)
    (cycle offset : option pyval) : io pyval :=
  let cycle := arg_or CURRENT_CYCLE cycle in
  let offset := arg_or (PInt 0) offset in
  let path := "/%s/filings/%s/%s/%s" in
  Client.fetch self path [cycle; year; month; day] (listing_kwargs offset).

Definition form_types (self : Client.t) (cycle offset : option pyval) : io pyval :=
  let cycle := arg_or CURRENT_CYCLE cycle in
  let offset := arg_or (PInt 0) offset in
  let path := "/%s/filings/types" in
  Client.fetch self path [cycle] (listing_kwargs offset).

Definition by_type (self : Client.t) (form_type : pyval)
    (cycle offset : option pyval) : io pyval :=
  let cycle := arg_or CURRENT_CYCLE cycle in
  let offset := arg_or (PInt 0) offset in
  let path := "/%s/filings/types/%s" in
  Client.fetch self path [cycle; form_type] (listing_kwargs offset).

Definition amendments (self : Client.t) (cycle offset : option pyval) : io pyval :=
  let cycle := arg_or CURRENT_CYCLE cycle in
  let offset := arg_or (PInt 0) offset in
  let path := "/%s/filings/amendments" in
  Client.fetch self path [cycle] (listing_kwargs offset).
End Methods.
End FilingsClient.

Module CandidatesClient.
Section Methods.
Context `{Runtime}.

Definition latest (self : Client.t) (cycle offset : option pyval) : io pyval :=
  let cycle := arg_or CURRENT_CYCLE cycle in
  let offset := arg_or (PInt 0) offset in
  let path := "/%s/candidates/new" in
  Client.fetch self path [cycle] (listing_kwargs offset).

Definition get (self : Client.t) (cand_id : pyval)
    (cycle offset : option pyval) : io pyval :=
  let cycle := arg_or CURRENT_CYCLE cycle in
  let offset := arg_or (PInt 0) offset in
  let path := "/%s/candidates/%s" in
  Client.fetch self path [cycle; cand_id] (<["offset" := KVal offset]> ∅).

Definition filter (self : Client.t) (query : pyval)
    (cycle offset : option pyval) : io pyval :=
  let cycle := arg_or CURRENT_CYCLE cycle in
  let offset := arg_or (PInt 0) offset in
  let path := "/%s/candidates/search" in
  Client.fetch self path [cycle]
    (<["query" := KVal query]> (listing_kwargs offset)).

Definition leaders (self : Client.t) (category : pyval)
    (cycle offset : option pyval) : io pyval :=
  let cycle := arg_or CURRENT_CYCLE cycle in
  let offset := arg_or (PInt 0) offset in
  let path := "/%s/candidates/leaders/%s" in
  Client.fetch self path [cycle; category] (listing_kwargs offset).

Definition seats (self : Client.t) (state : pyval)
    (chamber district cycle offset : option pyval) : io pyval :=
  let chamber := arg_or PNone chamber in
  let district := arg_or PNone district in
  let cycle := arg_or CURRENT_CYCLE cycle in
  let offset := arg_or (PInt 0) offset in
  if py_truthy district then
    let path := "/%s/seats/%s/%s/%s" in
    Client.fetch self path [cycle; state; chamber; district]
      (listing_kwargs offset)
  else if py_truthy chamber then
    let path := "/%s/seats/%s/%s" in
    Client.fetch self path [cycle; state; chamber] (listing_kwargs offset)
  else
    let path := "/%s/seats/%s" in
    Client.fetch self path [cycle; state] (listing_kwargs offset).
End Methods.
End CandidatesClient.

Module CommitteesClient.
Section Methods.
Context `{Runtime}.

Definition latest (self : Client.t) (cycle offset : option pyval) : io pyval :=
  let cycle := arg_or CURRENT_CYCLE cycle in
  let offset := arg_or (PInt 0) offset in
  let path := "/%s/committees/new" in
  Client.fetch self path [cycle] (listing_kwargs offset).

Definition get (self : Client.t) (cmte_id : pyval)
    (cycle offset : option pyval) : io pyval :=
  let cycle := arg_or CURRENT_CYCLE cycle in
  let offset := arg_or (PInt 0) offset in
  let path := "/%s/committees/%s" in
  Client.fetch self path [cycle; cmte_id] (<["offset" := KVal offset]> ∅).

Definition filter (self : Client.t) (query : pyval)
    (cycle offset : option pyval) : io pyval :=
  let cycle := arg_or CURRENT_CYCLE cycle in
  let offset := arg_or (PInt 0) offset in
  let path := "/%s/committees/search" in
  Client.fetch self path [cycle]
    (<["query" := KVal query]> (listing_kwargs offset)).

Definition filings (self : Client.t) (cmte_id : pyval)
    (cycle offset : option pyval) : io pyval :=
  let cycle := arg_or CURRENT_CYCLE cycle in
  let offset := arg_or (PInt 0) offset in
  let path := "/%s/committees/%s/filings" in
  Client.fetch self path [cycle; cmte_id] (listing_kwargs offset).

Definition contributions (self : Client.t) (cmte_id : pyval)
    (cycle offset : option pyval) : io pyval :=
  let cycle := arg_or CURRENT_CYCLE cycle in
  let offset := arg_or (PInt 0) offset in
  let path := "/%s/committees/%s/contributions" in
  Client.fetch self path [cycle; cmte_id] (listing_kwargs offset).

Definition contributions_to_candidate (self : Client.t)
    (cmte_id candidate_id : pyval) (cycle offset : option pyval) : io pyval :=
  let cycle := arg_or CURRENT_CYCLE cycle in
  let offset := arg_or (PInt 0) offset in
  let path := "/%s/committees/%s/contributions/candidates/%s" in
  Client.fetch self path [cycle; cmte_id; candidate_id] (listing_kwargs offset).

Definition leadership (self : Client.t) (cycle offset : option pyval) : io pyval :=
  let cycle := arg_or CURRENT_CYCLE cycle in
  let offset := arg_or (PInt 0) offset in
  let path := "/%s/committees/leadership" in
  Client.fetch self path [cycle] (listing_kwargs offset).
End Methods.
End CommitteesClient.

(** The facade: itself a client, with one topic client of each kind
    sharing its key. *)
Module NytCampfin.
Record t : Type := {
  apikey : pyval;
  filings : Client.t;
  committees : Client.t;
  candidates : Client.t
}.

Definition init (key : pyval) : t :=
  {| apikey := key;
     filings := {| Client.apikey := key |};
     committees := {| Client.apikey := key |};
     candidates := {| Client.apikey := key |} |}.

(** The facade seen as the [Client] it inherits from. *)
Definition as_client (self : t) : Client.t := {| Client.apikey := apikey self |}.

Definition fetch `{Runtime} (self : t) : string -> list pyval ->
    gmap string kwval -> io pyval :=
  Client.fetch (as_client self).
End NytCampfin.

(** * Vocabulary of the properties *)

(** ** The three stages of [fetch] *)

Section Stages.
Context `{Runtime}.
Implicit Types (self : Client.t) (path u : string) (args : list pyval).
Implicit Types (kwargs : gmap string kwval) (off parse : kwval).

(** [status_code in (200, 304)] *)
Definition is_success (code : Z) : bool := (code =? 200)%Z || (code =? 304)%Z.

(** The message of a failing response:
    ['; '.join(e for e in content['errors'])] *)
Definition error_message (content : pyval) : outcome string :=
  errs ← py_getitem content (PStr "errors");
  items ← py_iter errs;
  py_join "; " items.

(** The value sent for [offset], given the one the caller passed. *)
Definition sent_offset off : kwval :=
  if kw_truthy off then off else KVal (PInt 0).

(** The query parameters of the request. *)
Definition query_of self kwargs off : gmap string kwval :=
  <["api-key" := KVal (Client.apikey self)]>
    (delete "parse" (<["offset" := sent_offset off]> kwargs)).

(** The URL of the request. *)
Definition url_of path args : outcome string :=
  if startswith (lower path) Client.BASE_URI then Return (path ++ "?")
  else py_format (Client.BASE_URI ++ (path ++ ".json")) args.

(** The extraction in force. *)
Definition parse_of kwargs : kwval :=
  default (KFun first_of_results) (kwargs !! "parse").

(** What becomes of a response. *)
Definition answer parse u (resp : response) : outcome pyval :=
  if is_success (status_code resp) then
    match parse with
    | KFun f =>
        result ← f (json resp);
        if DEBUG then py_setitem result "_url" (PStr u) else Return result
    | KVal _ => Return (json resp)
    end
  else
    errors ← error_message (json resp);
    Raise (if (status_code resp =? 404)%Z then NytNotFoundError errors
           else NytCampfinError errors).
End Stages.

(** ** Path templates *)

(** The number of [%s] placeholders of a template that has no other
    conversion in it. *)
Fixpoint placeholders (template : string) : option nat :=
  match template with
  | EmptyString => Some O
  | String "%" rest =>
      match rest with
      | String "s" rest' => S <$> placeholders rest'
      | _ => None
      end
  | String _ rest => placeholders rest
  end.

(** The template with its placeholders replaced by the given strings, in
    order. *)
Fixpoint substitute (template : string) (values : list string) : string :=
  match template with
  | EmptyString => EmptyString
  | String "%" rest =>
      match rest with
      | String "s" rest' =>
          match values with
          | v :: values' => v ++ substitute rest' values'
          | [] => String "%" (String "s" (substitute rest' []))
          end
      | _ => String "%" (substitute rest values)
      end
  | String c rest => String c (substitute rest values)
  end.

(** ** What a call sends and what it gets back *)

(** The call sent exactly one request, and the transport answered it with
    [resp]. *)
Definition answered_with `{Runtime} {A} (m : io A) (resp : response) : Prop :=
  exists req, sent_by m = [req] /\ requests_get (url req) (params req) = Return resp.

(** Status 200 or 304. *)
Definition success (resp : response) : Prop :=
  status_code resp = 200 \/ status_code resp = 304.

(** ** Endpoint calls *)

(** [offset=...] as the only keyword argument. *)
Definition offset_only (offset : pyval) : gmap string kwval :=
  <["offset" := KVal offset]> ∅.

(** The calls a user can make through the facade's topic clients, e.g.
    [api.filings.date(2012, 7, 4)]. *)
Inductive endpoint_call : Type :=
| filings_today (cycle offset : option pyval)
| filings_date (year month day : pyval) (cycle offset : option pyval)
| filings_form_types (cycle offset : option pyval)
| filings_by_type (form_type : pyval) (cycle offset : option pyval)
| filings_amendments (cycle offset : option pyval)
| candidates_latest (cycle offset : option pyval)
| candidates_get (cand_id : pyval) (cycle offset : option pyval)
| candidates_filter (query : pyval) (cycle offset : option pyval)
| candidates_leaders (category : pyval) (cycle offset : option pyval)
| candidates_seats (state : pyval) (chamber district cycle offset : option pyval)
| committees_latest (cycle offset : option pyval)
| committees_get (cmte_id : pyval) (cycle offset : option pyval)
| committees_filter (query : pyval) (cycle offset : option pyval)
| committees_filings (cmte_id : pyval) (cycle offset : option pyval)
| committees_contributions (cmte_id : pyval) (cycle offset : option pyval)
| committees_contributions_to_candidate (cmte_id candidate_id : pyval)
    (cycle offset : option pyval)
| committees_leadership (cycle offset : option pyval).

Definition invoke `{Runtime} (api : NytCampfin.t) (c : endpoint_call) : io pyval :=
  match c with
  | filings_today cy off => FilingsClient.today (NytCampfin.filings api) cy off
  | filings_date y m d cy off => FilingsClient.date (NytCampfin.filings api) y m d cy off
  | filings_form_types cy off => FilingsClient.form_types (NytCampfin.filings api) cy off
  | filings_by_type ft cy off => FilingsClient.by_type (NytCampfin.filings api) ft cy off
  | filings_amendments cy off => FilingsClient.amendments (NytCampfin.filings api) cy off
  | candidates_latest cy off => CandidatesClient.latest (NytCampfin.candidates api) cy off
  | candidates_get id cy off => CandidatesClient.get (NytCampfin.candidates api) id cy off
  | candidates_filter q cy off => CandidatesClient.filter (NytCampfin.candidates api) q cy off
  | candidates_leaders cat cy off =>
      CandidatesClient.leaders (NytCampfin.candidates api) cat cy off
  | candidates_seats st ch d cy off =>
      CandidatesClient.seats (NytCampfin.candidates api) st ch d cy off
  | committees_latest cy off => CommitteesClient.latest (NytCampfin.committees api) cy off
  | committees_get id cy off => CommitteesClient.get (NytCampfin.committees api) id cy off
  | committees_filter q cy off => CommitteesClient.filter (NytCampfin.committees api) q cy off
  | committees_filings id cy off =>
      CommitteesClient.filings (NytCampfin.committees api) id cy off
  | committees_contributions id cy off =>
      CommitteesClient.contributions (NytCampfin.committees api) id cy off
  | committees_contributions_to_candidate id cand cy off =>
      CommitteesClient.contributions_to_candidate (NytCampfin.committees api) id cand cy off
  | committees_leadership cy off =>
      CommitteesClient.leadership (NytCampfin.committees api) cy off
  end.

(** The path template of a call and the positional arguments handed to
    [fetch] with it, read off the method bodies. *)
Definition endpoint_path (c : endpoint_call) : string * list pyval :=
  let cyc := arg_or CURRENT_CYCLE in
  match c with
  | filings_today cy _ => ("/%s/filings", [cyc cy])
  | filings_date y m d cy _ => ("/%s/filings/%s/%s/%s", [cyc cy; y; m; d])
  | filings_form_types cy _ => ("/%s/filings/types", [cyc cy])
  | filings_by_type ft cy _ => ("/%s/filings/types/%s", [cyc cy; ft])
  | filings_amendments cy _ => ("/%s/filings/amendments", [cyc cy])
  | candidates_latest cy _ => ("/%s/candidates/new", [cyc cy])
  | candidates_get id cy _ => ("/%s/candidates/%s", [cyc cy; id])
  | candidates_filter _ cy _ => ("/%s/candidates/search", [cyc cy])
  | candidates_leaders cat cy _ => ("/%s/candidates/leaders/%s", [cyc cy; cat])
  | candidates_seats st ch d cy _ =>
      if py_truthy (arg_or PNone d) then
        ("/%s/seats/%s/%s/%s", [cyc cy; st; arg_or PNone ch; arg_or PNone d])
      else if py_truthy (arg_or PNone ch) then
        ("/%s/seats/%s/%s", [cyc cy; st; arg_or PNone ch])
      else ("/%s/seats/%s", [cyc cy; st])
  | committees_latest cy _ => ("/%s/committees/new", [cyc cy])
  | committees_get id cy _ => ("/%s/committees/%s", [cyc cy; id])
  | committees_filter _ cy _ => ("/%s/committees/search", [cyc cy])
  | committees_filings id cy _ => ("/%s/committees/%s/filings", [cyc cy; id])
  | committees_contributions id cy _ => ("/%s/committees/%s/contributions", [cyc cy; id])
  | committees_contributions_to_candidate id cand cy _ =>
      ("/%s/committees/%s/contributions/candidates/%s", [cyc cy; id; cand])
  | committees_leadership cy _ => ("/%s/committees/leadership", [cyc cy])
  end.

(** The keyword arguments handed to [fetch]. *)
Definition endpoint_kwargs (c : endpoint_call) : gmap string kwval :=
  let ofs := arg_or (PInt 0) in
  match c with
  | candidates_get _ _ off | committees_get _ _ off => offset_only (ofs off)
  | candidates_filter q _ off | committees_filter q _ off =>
      <["query" := KVal q]> (listing_kwargs (ofs off))
  | filings_today _ off | filings_date _ _ _ _ off | filings_form_types _ off
  | filings_by_type _ _ off | filings_amendments _ off | candidates_latest _ off
  | candidates_leaders _ _ off | candidates_seats _ _ _ _ off
  | committees_latest _ off | committees_filings _ _ off
  | committees_contributions _ _ off
  | committees_contributions_to_candidate _ _ _ off
  | committees_leadership _ off => listing_kwargs (ofs off)
  end.

(** The [offset] a call ends up passing to [fetch]. *)
Definition endpoint_offset (c : endpoint_call) : pyval :=
  arg_or (PInt 0)
    match c with
    | filings_today _ off | filings_date _ _ _ _ off | filings_form_types _ off
    | filings_by_type _ _ off | filings_amendments _ off | candidates_latest _ off
    | candidates_get _ _ off | candidates_filter _ _ off
    | candidates_leaders _ _ off | candidates_seats _ _ _ _ off
    | committees_latest _ off | committees_get _ _ off | committees_filter _ _ off
    | committees_filings _ _ off | committees_contributions _ _ off
    | committees_contributions_to_candidate _ _ _ off
    | committees_leadership _ off => off
    end.

(** ** Canned runtimes and responses *)

(** A runtime whose transport answers every request with the same
    response; conversions the templates never use are rejected. *)
Definition mock_runtime (debug : bool) (resp : response) : Runtime :=
  {| DEBUG := debug;
     requests_get := fun _ _ => Return resp;
     py_repr := fun _ => "<object>";
     format_directive := fun _ _ => Raise ValueError |}.

(** The mocked 500 response of the testable properties. *)
Definition server_error_response : response :=
  {| status_code := 500;
     json := PDict [("errors", PList [PStr "server error"; PStr "retry later"])] |}.

Definition mock_client : Client.t := {| Client.apikey := PStr "KEY" |}.

(** The mocked success response of the testable properties. *)
Definition one_candidate_response : response :=
  {| status_code := 200;
     json := PDict [("results", PList [PDict [("id", PStr "C001")]])] |}.

(** A success response with nothing in [results]. *)
Definition no_results_response : response :=
  {| status_code := 200; json := PDict [("results", PList [])] |}.

(** The mocked 404 response of the testable properties. *)
Definition not_found_response : response :=
  {| status_code := 404; json := PDict [("errors", PList [PStr "not found"])] |}.

(** The mocked two-candidate response of the testable properties. *)
Definition two_candidates_response : response :=
  {| status_code := 200;
     json := PDict [("results", PList [PDict [("id", PStr "C001")];
                                       PDict [("id", PStr "C002")]])] |}.

(** A failing response whose body has no [errors] field. *)
Definition bare_error_response : response :=
  {| status_code := 500; json := PDict [("status", PStr "ERROR")] |}.

(** A failing response whose [errors] is one string, not a list. *)
Definition string_error_response : response :=
  {| status_code := 500; json := PDict [("errors", PStr "down")] |}.

(** A failing response with a number among its [errors]. *)
Definition numeric_error_response : response :=
  {| status_code := 500;
     json := PDict [("errors", PList [PStr "quota"; PInt 429])] |}.

(** A success response whose body has no [results] field. *)
Definition bare_success_response : response :=
  {| status_code := 200; json := PDict [("status", PStr "OK")] |}.

(** A runtime whose transport fails on every request. *)
Definition broken_runtime (debug : bool) (e : exn) : Runtime :=
  {| DEBUG := debug;
     requests_get := fun _ _ => Raise e;
     py_repr := fun _ => "<object>";
     format_directive := fun _ _ => Raise ValueError |}.

(** The endpoint methods that pass [parse=lambda r: r['results']]: all
    but the two [get]s. *)
Definition is_listing (c : endpoint_call) : bool :=
  match c with
  | candidates_get _ _ _ | committees_get _ _ _ => false
  | _ => true
  end.

(** The [cycle] argument of a call, if the caller gave one. *)
Definition endpoint_cycle (c : endpoint_call) : option pyval :=
  match c with
  | filings_today cy _ | filings_date _ _ _ cy _ | filings_form_types cy _
  | filings_by_type _ cy _ | filings_amendments cy _ | candidates_latest cy _
  | candidates_get _ cy _ | candidates_filter _ cy _
  | candidates_leaders _ cy _ | candidates_seats _ _ _ cy _
  | committees_latest cy _ | committees_get _ cy _ | committees_filter _ cy _
  | committees_filings _ cy _ | committees_contributions _ cy _
  | committees_contributions_to_candidate _ _ cy _
  | committees_leadership cy _ => cy
  end.

(** * Properties *)

(** ** The three stages of [fetch] *)

Section FetchStages.
Context `{Runtime}.
Implicit Types (self : Client.t) (path u : string) (args : list pyval).
Implicit Types (kwargs : gmap string kwval) (off parse : kwval).

Lemma fetch_without_offset self path args kwargs sent :
  kwargs !! "offset" = None ->
  Client.fetch self path args kwargs sent = (Raise (KeyError (PStr "offset")), sent).
Proof.
  intros Hoff. unfold Client.fetch, mbind, io_bind, lift, kw_getitem.
  now rewrite Hoff.
Qed.

Lemma fetch_stages self path args kwargs off sent :
  kwargs !! "offset" = Some off ->
  Client.fetch self path args kwargs sent =
    match url_of path args with
    | Raise e => (Raise e, sent)
    | Return u =>
        let q := query_of self kwargs off in
        (resp ← requests_get u q; answer (parse_of kwargs) u resp,
         (sent ++ [{| url := u; params := q |}])%list)
    end.
Proof.
  intros Hoff.
  assert (Hq : (if negb (kw_truthy off)
                then <["offset" := KVal (PInt 0)]> kwargs else kwargs)
               = <["offset" := sent_offset off]> kwargs).
  { unfold sent_offset. destruct (kw_truthy off); cbn; [|reflexivity].
    symmetry. now apply insert_id. }
  unfold Client.fetch, mbind, io_bind, lift, kw_getitem, raise, mret, io_ret, http_get, lift.
  rewrite Hoff, Hq.
  replace (<["offset" := sent_offset off]> kwargs !! "parse")
    with (kwargs !! "parse") by (now rewrite lookup_insert_ne).
  fold (parse_of kwargs). fold (query_of self kwargs off).
  unfold url_of.
  assert (Hresp : forall u,
    (match requests_get u (query_of self kwargs off) with
     | Return resp =>
         (if negb ((status_code resp =? 200)%Z || (status_code resp =? 304)%Z)
          then
            let content := json resp in
            errors ← lift (errs ← py_getitem content (PStr "errors");
                           items ← py_iter errs;
                           py_join "; " items);
            if (status_code resp =? 404)%Z then raise (NytNotFoundError errors)
            else raise (NytCampfinError errors)
          else
            let result := json resp in
            match parse_of kwargs with
            | KFun f =>
                result ← lift (f result);
                if DEBUG then lift (py_setitem result "_url" (PStr u))
                else mret result
            | KVal _ => mret result
            end)
           (sent ++ [{| url := u; params := query_of self kwargs off |}])%list
     | Raise e =>
         (Raise e, (sent ++ [{| url := u; params := query_of self kwargs off |}])%list)
     end)
    = (resp ← requests_get u (query_of self kwargs off);
       answer (parse_of kwargs) u resp,
       (sent ++ [{| url := u; params := query_of self kwargs off |}])%list)).
  { intros u. unfold answer, is_success, error_message.
    destruct (requests_get u _) as [resp|e]; [|reflexivity]. cbn.
    destruct ((status_code resp =? 200)%Z || (status_code resp =? 304)%Z); cbn.
    - destruct (parse_of kwargs) as [v|f]; [reflexivity|].
      unfold mbind, io_bind, lift, mret, io_ret. cbn.
      destruct (f (json resp)); [|reflexivity]. now destruct DEBUG.
    - unfold mbind, io_bind, lift, raise. cbn.
      destruct (py_getitem (json resp) (PStr "errors")) as [errs|e]; [|reflexivity].
      cbn. destruct (py_iter errs) as [items|e]; [|reflexivity].
      cbn. destruct (py_join "; " items); [|reflexivity].
      now destruct (status_code resp =? 404)%Z. }
  destruct (startswith (lower path) Client.BASE_URI); cbn [negb].
  - apply Hresp.
  - destruct (py_format _ args) as [u|e]; [|reflexivity]. apply Hresp.
Qed.
End FetchStages.

(** ** Path templates *)

Ltac ascii_cases c :=
  destruct c as [[|] [|] [|] [|] [|] [|] [|] [|]]; try reflexivity; try congruence.

Section Templates.
Context `{Runtime}.

Lemma py_format_literal c rest args :
  c <> "%"%char ->
  py_format (String c rest) args = (s ← py_format rest args; Return (String c s)).
Proof. intros Hc. ascii_cases c. Qed.

Lemma placeholders_literal c rest :
  c <> "%"%char -> placeholders (String c rest) = placeholders rest.
Proof. intros Hc. ascii_cases c. Qed.

Lemma substitute_literal c rest values :
  c <> "%"%char ->
  substitute (String c rest) values = String c (substitute rest values).
Proof. intros Hc. ascii_cases c. Qed.

Lemma placeholders_percent c rest n :
  placeholders (String "%" (String c rest)) = Some n -> c = "s"%char.
Proof. ascii_cases c; cbn; discriminate. Qed.

Lemma append_cons x (a b : string) : String x a ++ b = String x (a ++ b).
Proof. reflexivity. Qed.

Lemma append_assoc (a b c : string) : (a ++ b) ++ c = a ++ (b ++ c).
Proof.
  induction a as [|x a IH]; [reflexivity|].
  rewrite !append_cons. now f_equal.
Qed.

(** Formatting a template made of [%s] placeholders only, followed by
    the [.json] suffix, with as many arguments as placeholders. *)
Lemma py_format_template_json template :
  (forall args, placeholders template = Some (length args) ->
     py_format (template ++ ".json") args
     = Return (substitute template (map py_str args) ++ ".json"))
  /\ (forall c args, placeholders (String c template) = Some (length args) ->
     py_format (String c template ++ ".json") args
     = Return (substitute (String c template) (map py_str args) ++ ".json")).
Proof.
  induction template as [|a t [IH1 IH2]].
  - split.
    + intros [|x args]; cbn; [reflexivity|discriminate].
    + intros c args Hp. destruct (ascii_dec c "%") as [->|Hc].
      * cbn in Hp. discriminate.
      * rewrite placeholders_literal in Hp by assumption.
        destruct args; [|discriminate]. rewrite append_cons.
        rewrite py_format_literal, substitute_literal by assumption.
        reflexivity.
  - split; [apply IH2|].
    intros c args Hp. destruct (ascii_dec c "%") as [->|Hc].
    + pose proof (placeholders_percent _ _ _ Hp) as ->.
      cbn in Hp. destruct (placeholders t) as [n|] eqn:Hn; [|discriminate].
      destruct args as [|x args]; [discriminate|].
      injection Hp as Hp. subst n.
      rewrite !append_cons. cbn [py_format substitute map].
      rewrite (IH1 args) by reflexivity.
      cbn. now rewrite append_assoc.
    + rewrite placeholders_literal in Hp by assumption.
      rewrite append_cons.
      rewrite py_format_literal, substitute_literal by assumption.
      rewrite (IH2 a args Hp). reflexivity.
Qed.

(** The URL of a call whose path is such a template. *)
Lemma url_of_template path args :
  startswith (lower path) Client.BASE_URI = false ->
  placeholders path = Some (length args) ->
  url_of path args
  = Return (Client.BASE_URI ++ (substitute path (map py_str args) ++ ".json")).
Proof.
  intros Hpre Hp. unfold url_of. rewrite Hpre.
  pose proof (proj1 (py_format_template_json path) args Hp) as Hf.
  unfold Client.BASE_URI. rewrite !append_cons.
  repeat (rewrite py_format_literal by discriminate).
  change ("" ++ (path ++ ".json")) with (path ++ ".json").
  rewrite Hf. reflexivity.
Qed.
End Templates.

(** ** What a call sends and what it gets back *)

Lemma is_success_true resp : is_success (status_code resp) = true <-> success resp.
Proof.
  unfold is_success, success. rewrite orb_true_iff, !Z.eqb_eq. reflexivity.
Qed.

Lemma is_success_false resp :
  is_success (status_code resp) = false
  <-> status_code resp <> 200 /\ status_code resp <> 304.
Proof.
  unfold is_success. rewrite orb_false_iff, !Z.eqb_neq. reflexivity.
Qed.

Section Observations.
Context `{Runtime}.
Implicit Types (self : Client.t) (path u : string) (args : list pyval).
Implicit Types (kwargs : gmap string kwval) (off parse : kwval).

(** A call either fails before anything is sent, or sends one request
    and turns the transport's reply into its result. *)
Lemma fetch_run self path args kwargs :
  (sent_by (Client.fetch self path args kwargs) = []
   /\ exists e, result_of (Client.fetch self path args kwargs) = Raise e)
  \/ (exists off u,
        kwargs !! "offset" = Some off
        /\ url_of path args = Return u
        /\ sent_by (Client.fetch self path args kwargs)
           = [{| url := u; params := query_of self kwargs off |}]
        /\ result_of (Client.fetch self path args kwargs)
           = (resp ← requests_get u (query_of self kwargs off);
              answer (parse_of kwargs) u resp)).
Proof.
  unfold sent_by, result_of, run.
  destruct (kwargs !! "offset") as [off|] eqn:Hoff.
  - rewrite (fetch_stages _ _ _ _ off) by assumption.
    destruct (url_of path args) as [u|e] eqn:Hu.
    + right. exists off, u. auto.
    + left. split; [reflexivity|]. now exists e.
  - rewrite fetch_without_offset by assumption.
    left. split; [reflexivity|]. now eexists.
Qed.

Lemma fetch_answered self path args kwargs resp :
  answered_with (Client.fetch self path args kwargs) resp ->
  exists off u,
    kwargs !! "offset" = Some off
    /\ url_of path args = Return u
    /\ sent_by (Client.fetch self path args kwargs)
       = [{| url := u; params := query_of self kwargs off |}]
    /\ result_of (Client.fetch self path args kwargs)
       = answer (parse_of kwargs) u resp.
Proof.
  intros (req & Hsent & Hresp).
  destruct (fetch_run self path args kwargs)
    as [[Hnil _]|(off & u & Hoff & Hu & Hs & Hr)].
  - rewrite Hnil in Hsent. discriminate.
  - exists off, u. repeat split; try assumption.
    rewrite Hs in Hsent. injection Hsent as <-.
    cbn in Hresp. rewrite Hr, Hresp. reflexivity.
Qed.

(** Whenever a request goes out, its [offset] parameter is the caller's
    value if that is truthy, and [0] otherwise. *)
Lemma fetch_offset_sent self path args kwargs off req :
  kwargs !! "offset" = Some off ->
  In req (sent_by (Client.fetch self path args kwargs)) ->
  params req !! "offset" = Some (sent_offset off).
Proof.
  intros Hoff Hin.
  destruct (fetch_run self path args kwargs)
    as [[Hnil _]|(off' & u & Hoff' & _ & Hs & _)].
  - rewrite Hnil in Hin. destruct Hin.
  - rewrite Hs in Hin. destruct Hin as [<-|[]]. cbn.
    assert (off' = off) as -> by congruence.
    unfold query_of.
    rewrite lookup_insert_ne, lookup_delete_ne, lookup_insert_eq by discriminate.
    reflexivity.
Qed.

(** The API key is among the parameters of every request. *)
Lemma fetch_api_key_sent self path args kwargs req :
  In req (sent_by (Client.fetch self path args kwargs)) ->
  params req !! "api-key" = Some (KVal (Client.apikey self)).
Proof.
  intros Hin.
  destruct (fetch_run self path args kwargs)
    as [[Hnil _]|(off' & u & Hoff' & _ & Hs & _)].
  - rewrite Hnil in Hin. destruct Hin.
  - rewrite Hs in Hin. destruct Hin as [<-|[]]. cbn.
    unfold query_of. apply lookup_insert_eq.
Qed.

(** On a failing status the answer is an exception. *)
Lemma answer_failure parse u resp :
  status_code resp <> 200 -> status_code resp <> 304 ->
  answer parse u resp
  = (errors ← error_message (json resp);
     Raise (if (status_code resp =? 404)%Z then NytNotFoundError errors
            else NytCampfinError errors)).
Proof.
  intros H200 H304. unfold answer.
  now rewrite (proj2 (is_success_false resp) (conj H200 H304)).
Qed.

Lemma answer_returns parse u resp v :
  answer parse u resp = Return v -> success resp.
Proof.
  unfold answer. destruct (is_success (status_code resp)) eqn:Hs.
  - intros _. now apply is_success_true.
  - destruct (error_message (json resp)); discriminate.
Qed.

Lemma all_strings_map_PStr (errs : list string) :
  all_strings (map PStr errs) = Return errs.
Proof.
  induction errs as [|e errs IH]; [reflexivity|].
  cbn. rewrite IH. reflexivity.
Qed.

Lemma error_message_joined content errs :
  py_getitem content (PStr "errors") = Return (PList (map PStr errs)) ->
  error_message content = Return (String.concat "; " errs).
Proof.
  intros Hget. unfold error_message. rewrite Hget. cbn.
  unfold py_join. rewrite all_strings_map_PStr. reflexivity.
Qed.
End Observations.

(** ** Offsets *)

Section Offsets.
Context `{Runtime}.

(** A falsy offset that is present goes out as [0]. *)
Lemma fetch_falsy_offset_sent_as_zero (self : Client.t) path args
    (kwargs : gmap string kwval) off req :
  kwargs !! "offset" = Some off ->
  kw_truthy off = false ->
  In req (sent_by (Client.fetch self path args kwargs)) ->
  params req !! "offset" = Some (KVal (PInt 0)).
Proof.
  intros Hoff Hf Hin. rewrite (fetch_offset_sent _ _ _ _ _ _ Hoff Hin).
  unfold sent_offset. now rewrite Hf.
Qed.

(** A truthy offset goes out as it came in. *)
Lemma fetch_truthy_offset_passed_through (self : Client.t) path args
    (kwargs : gmap string kwval) off req :
  kwargs !! "offset" = Some off ->
  kw_truthy off = true ->
  In req (sent_by (Client.fetch self path args kwargs)) ->
  params req !! "offset" = Some off.
Proof.
  intros Hoff Ht Hin. rewrite (fetch_offset_sent _ _ _ _ _ _ Hoff Hin).
  unfold sent_offset. now rewrite Ht.
Qed.
End Offsets.

(** C1 (as the code behaves): a direct [fetch] that leaves [offset] out
    does not send [offset=0]; [kwargs['offset']] raises [KeyError] before
    any request is made.  Shown on the facade following an API URI with no
    keyword arguments at all. *)
Theorem fetch_offset_omitted_raises_KeyError :
  forall (R : Runtime) (key : pyval) (args : list pyval),
    run (NytCampfin.fetch (NytCampfin.init key)
           "http://api.nytimes.com/svc/elections/us/v3/finances/2012/candidates/new.json"
           args ∅)
    = (Raise (KeyError (PStr "offset")), []).
Proof.
  intros R key args. unfold run, NytCampfin.fetch.
  now apply fetch_without_offset.
Qed.

(** ** Failing responses *)

(** C2: when the response's status is neither 200 nor 304 and its body
    carries the strings [errs] under [errors], [fetch] raises
    [NytNotFoundError] for status 404 and [NytCampfinError] for any other
    status, with the strings joined by ["; "] as the message; it returns no
    value. *)
Theorem fetch_failure_raises_joined_errors `{Runtime} (self : Client.t)
    (path : string) (args : list pyval) (kwargs : gmap string kwval)
    (resp : response) (errs : list string) :
  answered_with (Client.fetch self path args kwargs) resp ->
  status_code resp <> 200 ->
  status_code resp <> 304 ->
  py_getitem (json resp) (PStr "errors") = Return (PList (map PStr errs)) ->
  result_of (Client.fetch self path args kwargs)
  = Raise (if (status_code resp =? 404)%Z
           then NytNotFoundError (String.concat "; " errs)
           else NytCampfinError (String.concat "; " errs))
  /\ forall v, result_of (Client.fetch self path args kwargs) <> Return v.
Proof.
  intros Hans H200 H304 Herrs.
  destruct (fetch_answered _ _ _ _ _ Hans) as (off & u & _ & _ & _ & Hr).
  rewrite Hr, answer_failure by assumption.
  rewrite (error_message_joined _ _ Herrs). cbn.
  split; [reflexivity|discriminate].
Qed.

Lemma fetch_failure_raises_joined_errors_witness :
  let R := mock_runtime false server_error_response in
  result_of (Client.fetch mock_client "/%s/filings" [PInt 2012] (offset_only (PInt 0)))
  = Raise (NytCampfinError "server error; retry later")
  /\ forall v,
       result_of (Client.fetch mock_client "/%s/filings" [PInt 2012] (offset_only (PInt 0)))
       <> Return v.
Proof.
  intro R.
  apply (fetch_failure_raises_joined_errors (H := R) mock_client "/%s/filings"
           [PInt 2012] (offset_only (PInt 0)) server_error_response
           ["server error"; "retry later"]).
  - eexists. split; vm_compute; reflexivity.
  - vm_compute. discriminate.
  - vm_compute. discriminate.
  - vm_compute. reflexivity.
Defined.

(** C6: a call whose response has a status other than 200 and 304 ends in
    an exception, whatever the body holds; and a call that returns a value
    got a response with status 200 or 304. *)
Theorem fetch_no_partial_results `{Runtime} (self : Client.t) (path : string)
    (args : list pyval) (kwargs : gmap string kwval) :
  (forall resp,
     answered_with (Client.fetch self path args kwargs) resp ->
     status_code resp <> 200 -> status_code resp <> 304 ->
     exists e, result_of (Client.fetch self path args kwargs) = Raise e)
  /\ (forall v,
        result_of (Client.fetch self path args kwargs) = Return v ->
        exists resp,
          answered_with (Client.fetch self path args kwargs) resp /\ success resp).
Proof.
  split.
  - intros resp Hans H200 H304.
    destruct (fetch_answered _ _ _ _ _ Hans) as (off & u & _ & _ & _ & Hr).
    rewrite Hr, answer_failure by assumption.
    destruct (error_message (json resp)) as [msg|e]; cbn; eauto.
  - intros v Hv.
    destruct (fetch_run self path args kwargs)
      as [[_ [e He]]|(off & u & _ & _ & Hs & Hr)].
    + rewrite He in Hv. discriminate.
    + rewrite Hr in Hv.
      destruct (requests_get u (query_of self kwargs off)) as [resp|e] eqn:Hg;
        [|discriminate].
      cbn in Hv. exists resp. split.
      * eexists. split; [exact Hs|exact Hg].
      * eapply answer_returns; eassumption.
Qed.

Lemma fetch_no_partial_results_witness :
  let R := mock_runtime false
    {| status_code := 503;
       json := PDict [("results", PList [PDict [("id", PStr "C001")]])] |} in
  exists e,
    result_of (Client.fetch mock_client "/%s/candidates/new" [PInt 2012]
                 (listing_kwargs (PInt 20))) = Raise e.
Proof.
  intro R.
  apply (proj1 (fetch_no_partial_results (H := R) mock_client "/%s/candidates/new"
                  [PInt 2012] (listing_kwargs (PInt 20)))
           {| status_code := 503;
              json := PDict [("results", PList [PDict [("id", PStr "C001")]])] |}).
  - eexists. split; vm_compute; reflexivity.
  - vm_compute. discriminate.
  - vm_compute. discriminate.
Defined.

(** ** Successful responses and the [parse] argument *)

Section Extraction.
Context `{Runtime}.

Lemma answer_success parse u resp :
  success resp ->
  answer parse u resp
  = match parse with
    | KFun f =>
        result ← f (json resp);
        if DEBUG then py_setitem result "_url" (PStr u) else Return result
    | KVal _ => Return (json resp)
    end.
Proof.
  intros Hs. unfold answer. now rewrite (proj2 (is_success_true resp) Hs).
Qed.

Lemma first_of_results_empty content :
  py_getitem content (PStr "results") = Return (PList []) ->
  first_of_results content = Raise IndexError.
Proof. intros Hget. unfold first_of_results. now rewrite Hget. Qed.

(** With no [parse] among the keyword arguments, an empty [results]
    list in a successful response makes the call fail on the index. *)
Lemma fetch_default_parse_empty_results (self : Client.t) path args
    (kwargs : gmap string kwval) resp :
  kwargs !! "parse" = None ->
  answered_with (Client.fetch self path args kwargs) resp ->
  success resp ->
  py_getitem (json resp) (PStr "results") = Return (PList []) ->
  result_of (Client.fetch self path args kwargs) = Raise IndexError.
Proof.
  intros Hp Hans Hs Hres.
  destruct (fetch_answered _ _ _ _ _ Hans) as (off & u & _ & _ & _ & Hr).
  rewrite Hr, answer_success by assumption.
  unfold parse_of. rewrite Hp. cbn.
  now rewrite first_of_results_empty.
Qed.
End Extraction.

(** C7: on a successful response, a [parse] argument that is not callable
    makes [fetch] return the decoded body as it is, with no extraction and
    no [_url] annotation even under [DEBUG]; a callable one is applied to
    the body; and with no [parse] argument the call takes the value under
    [results] and then its element at index 0, so that for a body whose
    [results] is a non-empty list the first element comes back (annotated
    under [DEBUG]) and not the body. *)
Theorem fetch_parse_not_callable `{Runtime} (self : Client.t) (path : string)
    (args : list pyval) (kwargs : gmap string kwval) (req : request)
    (resp : response) :
  sent_by (Client.fetch self path args kwargs) = [req] ->
  requests_get (url req) (params req) = Return resp ->
  success resp ->
  (forall v,
     kwargs !! "parse" = Some (KVal v) ->
     result_of (Client.fetch self path args kwargs) = Return (json resp))
  /\ (forall f,
        kwargs !! "parse" = Some (KFun f) ->
        result_of (Client.fetch self path args kwargs)
        = (result ← f (json resp);
           if DEBUG then py_setitem result "_url" (PStr (url req))
           else Return result))
  /\ (kwargs !! "parse" = None ->
      result_of (Client.fetch self path args kwargs)
      = (results ← py_getitem (json resp) (PStr "results");
         first ← py_getitem results (PInt 0);
         if DEBUG then py_setitem first "_url" (PStr (url req))
         else Return first)
      /\ forall first rest,
           py_getitem (json resp) (PStr "results") = Return (PList (first :: rest)) ->
           result_of (Client.fetch self path args kwargs)
           = if DEBUG then py_setitem first "_url" (PStr (url req))
             else Return first).
Proof.
  intros Hsent Hget Hs.
  assert (Hans : answered_with (Client.fetch self path args kwargs) resp)
    by (exists req; auto).
  destruct (fetch_answered _ _ _ _ _ Hans) as (off & u & _ & _ & Hs' & Hr).
  rewrite Hs' in Hsent. injection Hsent as <-. cbn [url].
  rewrite Hr, answer_success by assumption. unfold parse_of.
  split; [|split].
  - intros v Hp. now rewrite Hp.
  - intros f Hp. now rewrite Hp.
  - intros Hp. rewrite Hp. cbn [default]. unfold first_of_results. split.
    + destruct (py_getitem (json resp) (PStr "results")) as [results|e];
        [|reflexivity].
      cbn. destruct (py_getitem results (PInt 0)); reflexivity.
    + intros first rest Hres. rewrite Hres. reflexivity.
Qed.

Lemma fetch_parse_not_callable_witness :
  (let R := mock_runtime true one_candidate_response in
   result_of (Client.fetch mock_client "/%s/candidates/%s" [PInt 2012; PStr "C001"]
                (<["parse" := KVal PNone]> (offset_only (PInt 0))))
   = Return (PDict [("results", PList [PDict [("id", PStr "C001")]])]))
  /\ (let R := mock_runtime false one_candidate_response in
      result_of (Client.fetch mock_client "/%s/candidates/%s" [PInt 2012; PStr "C001"]
                   (offset_only (PInt 0)))
      = Return (PDict [("id", PStr "C001")])).
Proof.
  split; intro R.
  - refine (proj1
      (fetch_parse_not_callable (H := R) mock_client "/%s/candidates/%s"
         [PInt 2012; PStr "C001"]
         (<["parse" := KVal PNone]> (offset_only (PInt 0)))
         {| url := "http://api.nytimes.com/svc/elections/us/v3/finances/2012/candidates/C001.json";
            params := <["api-key" := KVal (PStr "KEY")]> (offset_only (PInt 0)) |}
         one_candidate_response _ _ _) PNone _).
    + vm_compute. reflexivity.
    + vm_compute. reflexivity.
    + left. reflexivity.
    + vm_compute. reflexivity.
  - refine (proj2 (proj2 (proj2
      (fetch_parse_not_callable (H := R) mock_client "/%s/candidates/%s"
         [PInt 2012; PStr "C001"] (offset_only (PInt 0))
         {| url := "http://api.nytimes.com/svc/elections/us/v3/finances/2012/candidates/C001.json";
            params := <["api-key" := KVal (PStr "KEY")]> (offset_only (PInt 0)) |}
         one_candidate_response _ _ _)) _)
      (PDict [("id", PStr "C001")]) [] _).
    + vm_compute. reflexivity.
    + vm_compute. reflexivity.
    + left. reflexivity.
    + vm_compute. reflexivity.
    + reflexivity.
Defined.

(** C10: on a successful response whose [results] is the empty list, a
    call that relies on the default extraction ([fetch] without [parse],
    [candidates.get], [committees.get]) returns nothing: it raises
    [IndexError], which a handler for [NytCampfinError] does not catch. *)
Theorem default_extraction_empty_results `{Runtime} (self : Client.t)
    (resp : response) :
  success resp ->
  py_getitem (json resp) (PStr "results") = Return (PList []) ->
  (forall path args (kwargs : gmap string kwval),
     kwargs !! "parse" = None ->
     answered_with (Client.fetch self path args kwargs) resp ->
     result_of (Client.fetch self path args kwargs) = Raise IndexError)
  /\ (forall cand_id cycle offset,
        answered_with (CandidatesClient.get self cand_id cycle offset) resp ->
        result_of (CandidatesClient.get self cand_id cycle offset) = Raise IndexError)
  /\ (forall cmte_id cycle offset,
        answered_with (CommitteesClient.get self cmte_id cycle offset) resp ->
        result_of (CommitteesClient.get self cmte_id cycle offset) = Raise IndexError)
  /\ catches C_NytCampfinError IndexError = false.
Proof.
  intros Hs Hres. repeat split.
  - intros path args kwargs Hp Hans.
    now apply (fetch_default_parse_empty_results self path args kwargs resp).
  - intros cand_id cycle offset Hans.
    apply (fetch_default_parse_empty_results self _ _ _ resp); try assumption.
    now rewrite lookup_insert_ne.
  - intros cmte_id cycle offset Hans.
    apply (fetch_default_parse_empty_results self _ _ _ resp); try assumption.
    now rewrite lookup_insert_ne.
Qed.

Lemma default_extraction_empty_results_witness :
  let R := mock_runtime false no_results_response in
  result_of (CommitteesClient.get mock_client (PStr "C00000000") None None)
  = Raise IndexError.
Proof.
  intro R.
  apply (proj1 (proj2 (proj2
           (default_extraction_empty_results (H := R) mock_client no_results_response
              (or_introl eq_refl) eq_refl)))
           (PStr "C00000000") None None).
  eexists. split; vm_compute; reflexivity.
Defined.

(** ** Following an API URI *)

(** C9: when the path starts, case-insensitively, with the base URI, the
    positional arguments play no part in the call, every request that goes
    out has the path followed by one ['?'] as its URL, and one such
    request does go out as soon as [offset] is among the keyword
    arguments. *)
Theorem fetch_full_url_ignores_args `{Runtime} (self : Client.t) (path : string)
    (args : list pyval) (kwargs : gmap string kwval) :
  startswith (lower path) Client.BASE_URI = true ->
  (forall sent,
     Client.fetch self path args kwargs sent = Client.fetch self path [] kwargs sent)
  /\ (forall req,
        In req (sent_by (Client.fetch self path args kwargs)) ->
        url req = path ++ "?")
  /\ (forall off,
        kwargs !! "offset" = Some off ->
        map url (sent_by (Client.fetch self path args kwargs)) = [path ++ "?"]).
Proof.
  intros Hpre.
  assert (Hu : forall a, url_of path a = Return (path ++ "?"))
    by (intros a; unfold url_of; now rewrite Hpre).
  repeat split.
  - intros sent. destruct (kwargs !! "offset") as [off|] eqn:Hoff.
    + rewrite !(fetch_stages _ _ _ _ off) by assumption. now rewrite !Hu.
    + now rewrite !fetch_without_offset by assumption.
  - intros req Hin.
    destruct (fetch_run self path args kwargs)
      as [[Hnil _]|(off & u & _ & Hu' & Hs & _)].
    + rewrite Hnil in Hin. destruct Hin.
    + rewrite Hs in Hin. destruct Hin as [<-|[]]. cbn. congruence.
  - intros off Hoff. unfold sent_by, run.
    rewrite (fetch_stages _ _ _ _ off) by assumption. now rewrite Hu.
Qed.

Lemma fetch_full_url_ignores_args_witness :
  let R := mock_runtime false one_candidate_response in
  map url (sent_by (Client.fetch mock_client
             "HTTP://api.nytimes.com/svc/elections/us/v3/finances/2012/%s.json"
             [PStr "candidates"; PInt 7] (offset_only (PInt 0))))
  = ["HTTP://api.nytimes.com/svc/elections/us/v3/finances/2012/%s.json?"].
Proof.
  intro R.
  apply (proj2 (proj2 (fetch_full_url_ignores_args (H := R) mock_client
           "HTTP://api.nytimes.com/svc/elections/us/v3/finances/2012/%s.json"
           [PStr "candidates"; PInt 7] (offset_only (PInt 0)) eq_refl))
           (KVal (PInt 0))).
  vm_compute. reflexivity.
Defined.

(** ** Endpoint methods *)

Section Endpoints.
Context `{Runtime}.

(** Every endpoint method is one call of [fetch] on the shared key. *)
Lemma invoke_fetch key c sent :
  invoke (NytCampfin.init key) c sent
  = Client.fetch {| Client.apikey := key |} (fst (endpoint_path c))
      (snd (endpoint_path c)) (endpoint_kwargs c) sent.
Proof.
  destruct c; try reflexivity.
  cbn. unfold CandidatesClient.seats.
  destruct (py_truthy (arg_or PNone district)); [reflexivity|].
  destruct (py_truthy (arg_or PNone chamber)); reflexivity.
Qed.

Lemma endpoint_kwargs_offset c :
  endpoint_kwargs c !! "offset" = Some (KVal (endpoint_offset c)).
Proof.
  destruct c; cbn; unfold listing_kwargs, offset_only;
    rewrite ?(lookup_insert_ne _ "query") by discriminate;
    apply lookup_insert_eq.
Qed.

Lemma endpoint_path_template c :
  startswith (lower (fst (endpoint_path c))) Client.BASE_URI = false
  /\ placeholders (fst (endpoint_path c)) = Some (length (snd (endpoint_path c))).
Proof.
  destruct c; cbn; try (split; reflexivity).
  destruct (py_truthy (arg_or PNone district)); [split; reflexivity|].
  destruct (py_truthy (arg_or PNone chamber)); split; reflexivity.
Qed.

(** The one request an endpoint call sends. *)
Lemma invoke_sent key c :
  sent_by (invoke (NytCampfin.init key) c)
  = [{| url := Client.BASE_URI ++
               (substitute (fst (endpoint_path c))
                  (map py_str (snd (endpoint_path c))) ++ ".json");
        params := query_of {| Client.apikey := key |} (endpoint_kwargs c)
                    (KVal (endpoint_offset c)) |}].
Proof.
  unfold sent_by, run. rewrite invoke_fetch.
  rewrite (fetch_stages _ _ _ _ _ _ (endpoint_kwargs_offset c)).
  destruct (endpoint_path_template c) as [Hpre Hp].
  rewrite (url_of_template _ _ Hpre Hp). reflexivity.
Qed.

(** Through an endpoint method a falsy offset, the default included,
    goes out as [0] and a truthy one as it is. *)
Lemma invoke_offset_sent key c req :
  In req (sent_by (invoke (NytCampfin.init key) c)) ->
  params req !! "offset"
  = Some (KVal (if py_truthy (endpoint_offset c) then endpoint_offset c
                else PInt 0)).
Proof.
  rewrite invoke_sent. intros [<-|[]]. cbn. unfold query_of.
  rewrite lookup_insert_ne, lookup_delete_ne, lookup_insert_eq by discriminate.
  unfold sent_offset. cbn. now destruct (py_truthy (endpoint_offset c)).
Qed.
End Endpoints.

(** C3: every endpoint method is a [fetch] of its path template, none of
    which starts with the base URI; the one request it sends has as URL
    the base URI, then the template with the positional arguments
    substituted in order, then [.json]; and its query parameters hold the
    API key under [api-key]. *)
Theorem endpoint_url_and_api_key :
  forall (R : Runtime) (key : pyval) (c : endpoint_call),
    let template := fst (endpoint_path c) in
    let args := snd (endpoint_path c) in
    (forall sent,
       invoke (NytCampfin.init key) c sent
       = Client.fetch {| Client.apikey := key |} template args (endpoint_kwargs c) sent)
    /\ startswith (lower template) Client.BASE_URI = false
    /\ exists q,
         sent_by (invoke (NytCampfin.init key) c)
         = [{| url := Client.BASE_URI ++
                      (substitute template (map py_str args) ++ ".json");
               params := q |}]
         /\ q !! "api-key" = Some (KVal key).
Proof.
  intros R key c template args. split; [|split].
  - intros sent. apply invoke_fetch.
  - apply endpoint_path_template.
  - eexists. split; [apply invoke_sent|].
    unfold query_of. apply lookup_insert_eq.
Qed.

(** C4: with [DEBUG] off, when the request of [candidates.get("C001")] is
    answered with status 200 or 304 and the body
    [{"results": [{"id": "C001"}]}], the call returns [{"id": "C001"}],
    which is what the default extraction yields on that body. *)
Theorem candidates_get_returns_first_result `{Runtime} (self : Client.t)
    (resp : response) :
  DEBUG = false ->
  answered_with (CandidatesClient.get self (PStr "C001") None None) resp ->
  success resp ->
  json resp = PDict [("results", PList [PDict [("id", PStr "C001")]])] ->
  result_of (CandidatesClient.get self (PStr "C001") None None)
  = Return (PDict [("id", PStr "C001")])
  /\ first_of_results (json resp) = Return (PDict [("id", PStr "C001")]).
Proof.
  intros Hdbg Hans Hs Hbody.
  unfold CandidatesClient.get in *. cbn zeta in *.
  destruct (fetch_answered _ _ _ _ _ Hans) as (off & u & _ & _ & _ & Hr).
  rewrite Hr, answer_success by assumption.
  unfold parse_of. rewrite lookup_insert_ne, lookup_empty by discriminate.
  cbn [default]. rewrite Hbody, Hdbg. split; reflexivity.
Qed.

Lemma candidates_get_returns_first_result_witness :
  let R := mock_runtime false one_candidate_response in
  result_of (CandidatesClient.get mock_client (PStr "C001") None None)
  = Return (PDict [("id", PStr "C001")])
  /\ first_of_results (json one_candidate_response)
     = Return (PDict [("id", PStr "C001")]).
Proof.
  intro R.
  apply (candidates_get_returns_first_result (H := R) mock_client
           one_candidate_response).
  - reflexivity.
  - eexists. split; vm_compute; reflexivity.
  - left. reflexivity.
  - reflexivity.
Defined.

(** ** The [seats] method *)

(** C5 as stated fails: a district that is supplied but falsy, such as
    the number [0] of an at-large district, does not select the template
    with a district segment.  [seats("AK", chamber="H", district=0)]
    requests [/2012/seats/AK/H.json]. *)
Lemma seats_supplied_district_counterexample :
  ~ (forall (R : Runtime) (self : Client.t) (state d : pyval)
       (chamber cycle offset : option pyval),
       d <> PNone ->
       map url (sent_by (CandidatesClient.seats self state chamber (Some d) cycle offset))
       = [Client.BASE_URI ++
          (substitute "/%s/seats/%s/%s/%s"
             (map py_str [arg_or CURRENT_CYCLE cycle; state; arg_or PNone chamber; d])
           ++ ".json")]).
Proof.
  intros Hclaim.
  specialize (Hclaim (mock_runtime false one_candidate_response) mock_client
                (PStr "AK") (PInt 0) (Some (PStr "H")) None None).
  assert (Hd : PInt 0 <> PNone) by discriminate.
  specialize (Hclaim Hd). vm_compute in Hclaim. discriminate.
Qed.

(** C5 (amended): [seats] chooses among three templates by the truth
    value of its arguments: the one with chamber and district segments
    when [district] is truthy, else the one with a chamber segment when
    [chamber] is truthy, else the one ending at the state; and the calls
    [seats("NY")], [seats("NY", chamber="H")] and
    [seats("NY", chamber="H", district="3")] request three different URLs,
    each with exactly the segments of the arguments given. *)
Theorem seats_template_selection :
  forall (R : Runtime) (self : Client.t),
    (forall (state : pyval) (chamber district cycle offset : option pyval) sent,
       let ch := arg_or PNone chamber in
       let d := arg_or PNone district in
       let cyc := arg_or CURRENT_CYCLE cycle in
       let kwargs := listing_kwargs (arg_or (PInt 0) offset) in
       CandidatesClient.seats self state chamber district cycle offset sent
       = if py_truthy d then
           Client.fetch self "/%s/seats/%s/%s/%s" [cyc; state; ch; d] kwargs sent
         else if py_truthy ch then
           Client.fetch self "/%s/seats/%s/%s" [cyc; state; ch] kwargs sent
         else
           Client.fetch self "/%s/seats/%s" [cyc; state] kwargs sent)
    /\ map url (sent_by (CandidatesClient.seats self (PStr "NY") None None None None))
       = ["http://api.nytimes.com/svc/elections/us/v3/finances/2012/seats/NY.json"]
    /\ map url (sent_by (CandidatesClient.seats self (PStr "NY")
                           (Some (PStr "H")) None None None))
       = ["http://api.nytimes.com/svc/elections/us/v3/finances/2012/seats/NY/H.json"]
    /\ map url (sent_by (CandidatesClient.seats self (PStr "NY")
                           (Some (PStr "H")) (Some (PStr "3")) None None))
       = ["http://api.nytimes.com/svc/elections/us/v3/finances/2012/seats/NY/H/3.json"].
Proof.
  intros R self. split; [|repeat split].
  - intros state chamber district cycle offset sent ch d cyc kwargs.
    unfold CandidatesClient.seats. fold ch d cyc.
    destruct (py_truthy d); [reflexivity|]. destruct (py_truthy ch); reflexivity.
  - pose proof (invoke_sent (Client.apikey self)
                  (candidates_seats (PStr "NY") None None None None)) as Hs.
    destruct self as [key]. cbn in Hs |- *. unfold sent_by in *.
    now rewrite Hs.
  - pose proof (invoke_sent (Client.apikey self)
                  (candidates_seats (PStr "NY") (Some (PStr "H")) None None None)) as Hs.
    destruct self as [key]. cbn in Hs |- *. unfold sent_by in *.
    now rewrite Hs.
  - pose proof (invoke_sent (Client.apikey self)
                  (candidates_seats (PStr "NY") (Some (PStr "H")) (Some (PStr "3"))
                     None None)) as Hs.
    destruct self as [key]. cbn in Hs |- *. unfold sent_by in *.
    now rewrite Hs.
Qed.

(** ** The exception classes *)

(** C8: [NytNotFoundError] is a subclass of [NytCampfinError]; hence the
    exception [fetch] raises on a failing response, of either class, is
    caught by an [except NytCampfinError] clause. *)
Theorem library_errors_caught_as_NytCampfinError `{Runtime} (self : Client.t)
    (path : string) (args : list pyval) (kwargs : gmap string kwval)
    (resp : response) (msg : string) :
  answered_with (Client.fetch self path args kwargs) resp ->
  status_code resp <> 200 ->
  status_code resp <> 304 ->
  error_message (json resp) = Return msg ->
  issubclass C_NytNotFoundError C_NytCampfinError = true
  /\ exists e,
       result_of (Client.fetch self path args kwargs) = Raise e
       /\ (e = if (status_code resp =? 404)%Z then NytNotFoundError msg
               else NytCampfinError msg)
       /\ catches C_NytCampfinError e = true
       /\ forall (h : exn -> outcome pyval),
            try_except (result_of (Client.fetch self path args kwargs))
              C_NytCampfinError h = h e.
Proof.
  intros Hans H200 H304 Hmsg. split; [reflexivity|].
  destruct (fetch_answered _ _ _ _ _ Hans) as (off & u & _ & _ & _ & Hr).
  rewrite Hr, answer_failure, Hmsg by assumption. cbn.
  eexists. split; [reflexivity|]. split; [reflexivity|].
  destruct (status_code resp =? 404)%Z; split; reflexivity.
Qed.

Lemma library_errors_caught_as_NytCampfinError_witness :
  let R := mock_runtime false not_found_response in
  issubclass C_NytNotFoundError C_NytCampfinError = true
  /\ exists e,
       result_of (CandidatesClient.get mock_client (PStr "P00000000") None None)
       = Raise e
       /\ e = NytNotFoundError "not found"
       /\ catches C_NytCampfinError e = true
       /\ forall (h : exn -> outcome pyval),
            try_except
              (result_of (CandidatesClient.get mock_client (PStr "P00000000") None None))
              C_NytCampfinError h = h e.
Proof.
  intro R.
  apply (library_errors_caught_as_NytCampfinError (H := R) mock_client
           "/%s/candidates/%s" [PInt 2012; PStr "P00000000"] (offset_only (PInt 0))
           not_found_response "not found").
  - eexists. split; vm_compute; reflexivity.
  - vm_compute. discriminate.
  - vm_compute. discriminate.
  - reflexivity.
Defined.

(** * Further properties of the client *)

(** ** One request per call *)

Section Requests.
Context `{Runtime}.
Implicit Types (self : Client.t) (path u : string) (args : list pyval).
Implicit Types (kwargs : gmap string kwval) (off parse : kwval).

Lemma invoke_result key c :
  result_of (invoke (NytCampfin.init key) c)
  = result_of (Client.fetch {| Client.apikey := key |} (fst (endpoint_path c))
                 (snd (endpoint_path c)) (endpoint_kwargs c)).
Proof. unfold result_of, run. now rewrite invoke_fetch. Qed.

Lemma invoke_sent_by key c :
  sent_by (invoke (NytCampfin.init key) c)
  = sent_by (Client.fetch {| Client.apikey := key |} (fst (endpoint_path c))
               (snd (endpoint_path c)) (endpoint_kwargs c)).
Proof. unfold sent_by, run. now rewrite invoke_fetch. Qed.

Lemma endpoint_parse c :
  parse_of (endpoint_kwargs c)
  = KFun (if is_listing c then all_results else first_of_results).
Proof.
  unfold parse_of.
  destruct c; cbn [endpoint_kwargs is_listing]; unfold listing_kwargs, offset_only;
    rewrite ?(lookup_insert_ne _ "query") by discriminate;
    rewrite (lookup_insert_ne _ "offset") by discriminate;
    rewrite ?lookup_insert_eq, ?lookup_empty; reflexivity.
Qed.

(** What an endpoint call makes of the response to its request. *)
Lemma invoke_answered key c resp :
  answered_with (invoke (NytCampfin.init key) c) resp ->
  exists u,
    map url (sent_by (invoke (NytCampfin.init key) c)) = [u]
    /\ result_of (invoke (NytCampfin.init key) c)
       = answer (KFun (if is_listing c then all_results else first_of_results)) u resp.
Proof.
  unfold answered_with. rewrite invoke_sent_by, invoke_result. intros Hans.
  destruct (fetch_answered _ _ _ _ _ Hans) as (off & u & _ & _ & Hs & Hr).
  exists u. rewrite Hs, Hr, endpoint_parse. split; reflexivity.
Qed.

(** The same map comes out whether [parse] was among the keyword
    arguments or not. *)
Lemma query_of_parse self kwargs off p :
  query_of self (<["parse" := p]> kwargs) off = query_of self (delete "parse" kwargs) off.
Proof.
  unfold query_of. f_equal. apply map_eq. intros k.
  destruct (decide (k = "parse")) as [->|Hk].
  - now rewrite !lookup_delete_eq.
  - rewrite !lookup_delete_ne by congruence.
    destruct (decide (k = "offset")) as [->|Hk'].
    + now rewrite !lookup_insert_eq.
    + rewrite !lookup_insert_ne by congruence.
      now rewrite lookup_delete_ne by congruence.
Qed.
End Requests.

(** X1: a call of [fetch] sends at most one request, and which
    request it sends is settled before the transport is called: it is the
    same whatever the transport answers (a failing status, an exception)
    and whatever [DEBUG] is, so nothing is retried or sent after a
    failure. *)
Theorem fetch_sends_at_most_one_request :
  forall (debug debug' : bool)
         (get get' : string -> gmap string kwval -> outcome response)
         (repr : pyval -> string)
         (directive : string -> list pyval -> outcome string)
         (self : Client.t) (path : string) (args : list pyval)
         (kwargs : gmap string kwval),
    let R := {| DEBUG := debug; requests_get := get;
                py_repr := repr; format_directive := directive |} in
    let R' := {| DEBUG := debug'; requests_get := get';
                 py_repr := repr; format_directive := directive |} in
    (length (sent_by (Client.fetch (H := R) self path args kwargs)) <= 1)%nat
    /\ sent_by (Client.fetch (H := R) self path args kwargs)
       = sent_by (Client.fetch (H := R') self path args kwargs).
Proof.
  intros debug debug' get get' repr directive self path args kwargs R R'.
  unfold sent_by, run.
  destruct (kwargs !! "offset") as [off|] eqn:Hoff.
  - rewrite (fetch_stages (H := R) _ _ _ _ off) by assumption.
    rewrite (fetch_stages (H := R') _ _ _ _ off) by assumption.
    change (url_of (H := R') path args) with (url_of (H := R) path args).
    destruct (url_of (H := R) path args) as [u|e]; cbn.
    + split; [lia|reflexivity].
    + split; [lia|reflexivity].
  - rewrite (fetch_without_offset (H := R)) by assumption.
    rewrite (fetch_without_offset (H := R')) by assumption.
    cbn. split; [lia|reflexivity].
Qed.

(** X2: the [parse] argument stays on the client's side: the requests
    sent are the same with any [parse] as with none, and no request has a
    [parse] parameter. *)
Theorem fetch_parse_stays_local :
  forall (R : Runtime) (self : Client.t) (path : string) (args : list pyval)
         (kwargs : gmap string kwval) (p : kwval),
    sent_by (Client.fetch self path args (<["parse" := p]> kwargs))
    = sent_by (Client.fetch self path args (delete "parse" kwargs))
    /\ Forall (fun req => params req !! "parse" = None)
         (sent_by (Client.fetch self path args kwargs)).
Proof.
  intros R self path args kwargs p. split.
  - unfold sent_by, run.
    destruct (kwargs !! "offset") as [off|] eqn:Hoff.
    + rewrite (fetch_stages _ _ _ (<["parse" := p]> kwargs) off)
        by (now rewrite lookup_insert_ne).
      rewrite (fetch_stages _ _ _ (delete "parse" kwargs) off)
        by (now rewrite lookup_delete_ne).
      destruct (url_of path args); cbn; [|reflexivity].
      now rewrite query_of_parse.
    + rewrite !fetch_without_offset; [reflexivity| |].
      * now rewrite lookup_delete_ne.
      * now rewrite lookup_insert_ne.
  - destruct (fetch_run self path args kwargs)
      as [[Hnil _]|(off & u & _ & _ & Hs & _)].
    + rewrite Hnil. constructor.
    + rewrite Hs. repeat constructor. cbn. unfold query_of.
      rewrite lookup_insert_ne by discriminate. apply lookup_delete_eq.
Qed.

(** ** Query parameters *)

(** X3: the client's key always wins: whatever the caller passed under
    [api-key] is replaced by it; and every keyword argument other than
    [api-key], [parse] and [offset] reaches the request as it was
    given. *)
Theorem fetch_query_parameters `{Runtime} (self : Client.t) (path : string)
    (args : list pyval) (kwargs : gmap string kwval) (req : request) :
  In req (sent_by (Client.fetch self path args kwargs)) ->
  params req !! "api-key" = Some (KVal (Client.apikey self))
  /\ forall k, k <> "api-key" -> k <> "parse" -> k <> "offset" ->
       params req !! k = kwargs !! k.
Proof.
  intros Hin.
  destruct (fetch_run self path args kwargs)
    as [[Hnil _]|(off & u & _ & _ & Hs & _)].
  - rewrite Hnil in Hin. destruct Hin.
  - rewrite Hs in Hin. destruct Hin as [<-|[]]. cbn. unfold query_of. split.
    + apply lookup_insert_eq.
    + intros k Hk1 Hk2 Hk3.
      now rewrite lookup_insert_ne, lookup_delete_ne, lookup_insert_ne by congruence.
Qed.

Lemma fetch_query_parameters_witness :
  let R := mock_runtime false two_candidates_response in
  let kwargs : gmap string kwval :=
    <["api-key" := KVal (PStr "SOMEONE-ELSE")]>
      (<["query" := KVal (PStr "smith")]> (listing_kwargs (PInt 0))) in
  let req := {| url := "http://api.nytimes.com/svc/elections/us/v3/finances/2012/candidates/search.json";
                params := <["api-key" := KVal (PStr "KEY")]>
                            (<["query" := KVal (PStr "smith")]> (offset_only (PInt 0))) |} in
  params req !! "api-key" = Some (KVal (PStr "KEY"))
  /\ params req !! "query" = kwargs !! "query".
Proof.
  intros R kwargs req.
  assert (Hin : In req (sent_by (Client.fetch mock_client "/%s/candidates/search"
                                   [PInt 2012] kwargs)))
    by (left; vm_compute; reflexivity).
  destruct (fetch_query_parameters (H := R) mock_client "/%s/candidates/search"
              [PInt 2012] kwargs req Hin) as [Hkey Hrest].
  split; [exact Hkey|].
  apply Hrest; vm_compute; discriminate.
Defined.

(** X4: when [offset] is among the keyword arguments of a [fetch], the
    request carries [0] for a falsy value ([0], [None], [False], [""],
    an empty list or dict, a zero float) and the value itself for a truthy
    one. *)
Theorem fetch_offset_normalised `{Runtime} (self : Client.t) (path : string)
    (args : list pyval) (kwargs : gmap string kwval) (off : kwval) (req : request) :
  kwargs !! "offset" = Some off ->
  In req (sent_by (Client.fetch self path args kwargs)) ->
  params req !! "offset" = Some (if kw_truthy off then off else KVal (PInt 0)).
Proof.
  intros Hoff Hin.
  destruct (fetch_run self path args kwargs)
    as [[Hnil _]|(off' & u & Hoff' & _ & Hs & _)].
  - rewrite Hnil in Hin. destruct Hin.
  - rewrite Hs in Hin. destruct Hin as [<-|[]]. cbn [params].
    assert (off' = off) as -> by congruence.
    unfold query_of, sent_offset.
    rewrite lookup_insert_ne, lookup_delete_ne by discriminate.
    apply lookup_insert_eq.
Qed.

Lemma fetch_offset_normalised_witness :
  let R := mock_runtime false two_candidates_response in
  let req := {| url := "http://api.nytimes.com/svc/elections/us/v3/finances/2012/candidates/new.json";
                params := <["api-key" := KVal (PStr "KEY")]> (offset_only (PInt 0)) |} in
  params req !! "offset" = Some (KVal (PInt 0)).
Proof.
  intros R req.
  apply (fetch_offset_normalised (H := R) mock_client "/%s/candidates/new"
           [PInt 2012] (listing_kwargs PNone) (KVal PNone) req).
  - vm_compute. reflexivity.
  - left. vm_compute. reflexivity.
Defined.

(** X5: through every endpoint method the request carries [offset=0]
    when the caller left the offset out or gave a falsy one, and the
    caller's offset when it is truthy. *)
Theorem endpoint_offset_normalised `{Runtime} (key : pyval) (c : endpoint_call)
    (req : request) :
  In req (sent_by (invoke (NytCampfin.init key) c)) ->
  params req !! "offset"
  = Some (KVal (if py_truthy (endpoint_offset c) then endpoint_offset c
                else PInt 0)).
Proof.
  rewrite invoke_sent. intros [<-|[]]. cbn [params]. unfold query_of.
  rewrite lookup_insert_ne, lookup_delete_ne, lookup_insert_eq by discriminate.
  unfold sent_offset. cbn [kw_truthy].
  now destruct (py_truthy (endpoint_offset c)).
Qed.

Lemma endpoint_offset_normalised_witness :
  let R := mock_runtime false two_candidates_response in
  let req := {| url := "http://api.nytimes.com/svc/elections/us/v3/finances/2010/committees/leadership.json";
                params := <["api-key" := KVal (PStr "KEY")]> (offset_only (PInt 40)) |} in
  params req !! "offset" = Some (KVal (PInt 40)).
Proof.
  intros R req.
  apply (endpoint_offset_normalised (H := R) (PStr "KEY")
           (committees_leadership (Some (PInt 2010)) (Some (PInt 40))) req).
  left. vm_compute. reflexivity.
Defined.

(** X14: the [filter] methods put the search term in the query string,
    under [query], and not in the path, which ends in [/search.json]
    whatever the term. *)
Theorem filter_sends_query_parameter :
  forall (R : Runtime) (key query : pyval) (cycle offset : option pyval),
    (exists q,
       sent_by (invoke (NytCampfin.init key) (candidates_filter query cycle offset))
       = [{| url := Client.BASE_URI ++
                    ("/" ++ py_str (arg_or CURRENT_CYCLE cycle) ++ "/candidates/search.json");
             params := q |}]
       /\ q !! "query" = Some (KVal query))
    /\ (exists q,
          sent_by (invoke (NytCampfin.init key) (committees_filter query cycle offset))
          = [{| url := Client.BASE_URI ++
                       ("/" ++ py_str (arg_or CURRENT_CYCLE cycle) ++ "/committees/search.json");
                params := q |}]
          /\ q !! "query" = Some (KVal query)).
Proof.
  intros R key query cycle offset. split.
  - eexists. rewrite invoke_sent. split.
    + cbn [endpoint_path fst snd map]. cbn. rewrite append_cons, append_assoc. reflexivity.
    + unfold query_of. cbn [endpoint_kwargs].
      rewrite lookup_insert_ne, lookup_delete_ne, lookup_insert_ne by discriminate.
      apply lookup_insert_eq.
  - eexists. rewrite invoke_sent. split.
    + cbn [endpoint_path fst snd map]. cbn. rewrite append_cons, append_assoc. reflexivity.
    + unfold query_of. cbn [endpoint_kwargs].
      rewrite lookup_insert_ne, lookup_delete_ne, lookup_insert_ne by discriminate.
      apply lookup_insert_eq.
Qed.

(** ** What the endpoint methods return *)

Section Results.
Context `{Runtime}.

Lemma assoc_lookup_set_same k v d : assoc_lookup k (assoc_set k v d) = Some v.
Proof.
  induction d as [|[k' v'] d IH]; cbn.
  - now rewrite String.eqb_refl.
  - destruct (String.eqb k k') eqn:Hk; cbn.
    + now rewrite String.eqb_refl.
    + now rewrite Hk.
Qed.

Lemma assoc_lookup_set_other k k' v d :
  k' <> k -> assoc_lookup k' (assoc_set k v d) = assoc_lookup k' d.
Proof.
  intros Hne. apply String.eqb_neq in Hne.
  induction d as [|[k0 v0] d IH]; cbn.
  - now rewrite Hne.
  - destruct (String.eqb k k0) eqn:Hk; cbn.
    + apply String.eqb_eq in Hk. subst k0. now rewrite Hne.
    + now rewrite IH.
Qed.

Lemma getitem_missing d k :
  assoc_lookup k d = None -> py_getitem (PDict d) (PStr k) = Raise (KeyError (PStr k)).
Proof. intros Hk. cbn. now rewrite Hk. Qed.
End Results.

(** X6: with [DEBUG] off, every endpoint method other than the two [get]s
    returns, on a successful response, whatever the body holds under
    [results], whole. *)
Theorem listing_endpoints_return_results `{Runtime} (key : pyval)
    (c : endpoint_call) (resp : response) (v : pyval) :
  DEBUG = false ->
  is_listing c = true ->
  answered_with (invoke (NytCampfin.init key) c) resp ->
  success resp ->
  py_getitem (json resp) (PStr "results") = Return v ->
  result_of (invoke (NytCampfin.init key) c) = Return v.
Proof.
  intros Hdbg Hl Hans Hs Hres.
  destruct (invoke_answered _ _ _ Hans) as (u & _ & Hr).
  rewrite Hr, answer_success, Hl by assumption.
  unfold all_results. rewrite Hres. cbn. now rewrite Hdbg.
Qed.

Lemma listing_endpoints_return_results_witness :
  let R := mock_runtime false two_candidates_response in
  result_of (invoke (NytCampfin.init (PStr "KEY")) (candidates_latest None None))
  = Return (PList [PDict [("id", PStr "C001")]; PDict [("id", PStr "C002")]]).
Proof.
  intro R.
  apply (listing_endpoints_return_results (H := R) (PStr "KEY")
           (candidates_latest None None) two_candidates_response).
  - reflexivity.
  - reflexivity.
  - eexists. split; vm_compute; reflexivity.
  - left. reflexivity.
  - reflexivity.
Defined.

(** X7: with [DEBUG] on, an endpoint method other than the two [get]s
    cannot return a list of results: the assignment [result['_url'] = url]
    on the list raises [TypeError]. *)
Theorem debug_breaks_listing_endpoints `{Runtime} (key : pyval)
    (c : endpoint_call) (resp : response) (results : list pyval) :
  DEBUG = true ->
  is_listing c = true ->
  answered_with (invoke (NytCampfin.init key) c) resp ->
  success resp ->
  py_getitem (json resp) (PStr "results") = Return (PList results) ->
  result_of (invoke (NytCampfin.init key) c) = Raise TypeError.
Proof.
  intros Hdbg Hl Hans Hs Hres.
  destruct (invoke_answered _ _ _ Hans) as (u & _ & Hr).
  rewrite Hr, answer_success, Hl by assumption.
  unfold all_results. rewrite Hres. cbn. now rewrite Hdbg.
Qed.

Lemma debug_breaks_listing_endpoints_witness :
  let R := mock_runtime true two_candidates_response in
  result_of (invoke (NytCampfin.init (PStr "KEY")) (filings_today None None))
  = Raise TypeError.
Proof.
  intro R.
  apply (debug_breaks_listing_endpoints (H := R) (PStr "KEY")
           (filings_today None None) two_candidates_response
           [PDict [("id", PStr "C001")]; PDict [("id", PStr "C002")]]).
  - reflexivity.
  - reflexivity.
  - eexists. split; vm_compute; reflexivity.
  - left. reflexivity.
  - reflexivity.
Defined.

(** X8: with [DEBUG] on, when the extraction in force yields a dict, the
    call returns that dict with [_url] set to the URL of the request and
    every other entry as it was. *)
Theorem debug_annotates_result `{Runtime} (self : Client.t) (path : string)
    (args : list pyval) (kwargs : gmap string kwval) (req : request)
    (resp : response) (f : pyval -> outcome pyval) (d : list (string * pyval)) :
  DEBUG = true ->
  parse_of kwargs = KFun f ->
  sent_by (Client.fetch self path args kwargs) = [req] ->
  requests_get (url req) (params req) = Return resp ->
  success resp ->
  f (json resp) = Return (PDict d) ->
  exists d',
    result_of (Client.fetch self path args kwargs) = Return (PDict d')
    /\ assoc_lookup "_url" d' = Some (PStr (url req))
    /\ forall k, k <> "_url" -> assoc_lookup k d' = assoc_lookup k d.
Proof.
  intros Hdbg Hp Hsent Hget Hs Hf.
  assert (Hans : answered_with (Client.fetch self path args kwargs) resp)
    by (exists req; auto).
  destruct (fetch_answered _ _ _ _ _ Hans) as (off & u & _ & _ & Hs' & Hr).
  rewrite Hs' in Hsent. injection Hsent as <-.
  rewrite Hr, answer_success, Hp, Hf by assumption. cbn. rewrite Hdbg. cbn.
  eexists. split; [reflexivity|]. split.
  - apply assoc_lookup_set_same.
  - intros k Hk. now apply assoc_lookup_set_other.
Qed.

Lemma debug_annotates_result_witness :
  let R := mock_runtime true one_candidate_response in
  exists d',
    result_of (CandidatesClient.get mock_client (PStr "C001") None None)
    = Return (PDict d')
    /\ assoc_lookup "_url" d'
       = Some (PStr "http://api.nytimes.com/svc/elections/us/v3/finances/2012/candidates/C001.json")
    /\ forall k, k <> "_url" -> assoc_lookup k d' = assoc_lookup k [("id", PStr "C001")].
Proof.
  intro R.
  apply (debug_annotates_result (H := R) mock_client "/%s/candidates/%s"
           [PInt 2012; PStr "C001"] (offset_only (PInt 0))
           {| url := "http://api.nytimes.com/svc/elections/us/v3/finances/2012/candidates/C001.json";
              params := <["api-key" := KVal (PStr "KEY")]> (offset_only (PInt 0)) |}
           one_candidate_response first_of_results [("id", PStr "C001")]).
  - reflexivity.
  - vm_compute. reflexivity.
  - vm_compute. reflexivity.
  - reflexivity.
  - left. reflexivity.
  - reflexivity.
Defined.

(** X10: a successful response whose body is a dict without [results]
    makes every endpoint method raise [KeyError('results')], with either
    extraction and whatever [DEBUG] is. *)
Theorem success_without_results `{Runtime} (key : pyval) (c : endpoint_call)
    (resp : response) (d : list (string * pyval)) :
  answered_with (invoke (NytCampfin.init key) c) resp ->
  success resp ->
  json resp = PDict d ->
  assoc_lookup "results" d = None ->
  result_of (invoke (NytCampfin.init key) c) = Raise (KeyError (PStr "results")).
Proof.
  intros Hans Hs Hbody Hres.
  destruct (invoke_answered _ _ _ Hans) as (u & _ & Hr).
  rewrite Hr, answer_success by assumption.
  destruct (is_listing c); unfold first_of_results, all_results;
    rewrite Hbody, (getitem_missing _ _ Hres); reflexivity.
Qed.

Lemma success_without_results_witness :
  let R := mock_runtime false bare_success_response in
  result_of (invoke (NytCampfin.init (PStr "KEY"))
               (committees_get (PStr "C00000000") None None))
  = Raise (KeyError (PStr "results")).
Proof.
  intro R.
  apply (success_without_results (H := R) (PStr "KEY")
           (committees_get (PStr "C00000000") None None) bare_success_response
           [("status", PStr "OK")]).
  - eexists. split; vm_compute; reflexivity.
  - left. reflexivity.
  - reflexivity.
  - reflexivity.
Defined.

(** ** Failures *)

Section Failures.
Context `{Runtime}.

Lemma all_strings_non_string (pre : list string) (v : pyval) (rest : list pyval) :
  (forall s, v <> PStr s) ->
  all_strings (map PStr pre ++ v :: rest)%list = Raise TypeError.
Proof.
  intros Hv. induction pre as [|s pre IH]; cbn.
  - destruct v; try reflexivity. now destruct (Hv s).
  - now rewrite IH.
Qed.

(** Formatting with a number of arguments other than the number of
    placeholders. *)
Lemma py_format_wrong_count template :
  (forall args n, placeholders template = Some n -> length args <> n ->
     py_format (template ++ ".json") args = Raise TypeError)
  /\ (forall c args n, placeholders (String c template) = Some n ->
        length args <> n ->
        py_format (String c template ++ ".json") args = Raise TypeError).
Proof.
  induction template as [|a t [IH1 IH2]].
  - assert (Hnil : forall args n, placeholders "" = Some n -> length args <> n ->
                     py_format ("" ++ ".json") args = Raise TypeError).
    { intros args n Hp Hn. injection Hp as <-.
      destruct args; [now destruct Hn|reflexivity]. }
    split; [exact Hnil|].
    intros c args n Hp Hn. destruct (ascii_dec c "%") as [->|Hc].
    + cbn in Hp. discriminate.
    + rewrite placeholders_literal in Hp by assumption.
      rewrite append_cons, py_format_literal by assumption.
      now rewrite (Hnil args n).
  - split; [apply IH2|].
    intros c args n Hp Hn. destruct (ascii_dec c "%") as [->|Hc].
    + pose proof (placeholders_percent _ _ _ Hp) as ->.
      cbn in Hp. destruct (placeholders t) as [m|] eqn:Hm; [|discriminate].
      injection Hp as <-.
      rewrite !append_cons. cbn [py_format].
      destruct args as [|x args]; [reflexivity|].
      rewrite (IH1 args m) by (cbn in Hn; auto). reflexivity.
    + rewrite placeholders_literal in Hp by assumption.
      rewrite append_cons, py_format_literal by assumption.
      now rewrite (IH2 a args n).
Qed.

Lemma url_of_wrong_count path args n :
  startswith (lower path) Client.BASE_URI = false ->
  placeholders path = Some n ->
  length args <> n ->
  url_of path args = Raise TypeError.
Proof.
  intros Hpre Hp Hn. unfold url_of. rewrite Hpre.
  pose proof (proj1 (py_format_wrong_count path) args n Hp Hn) as Hf.
  unfold Client.BASE_URI. rewrite !append_cons.
  repeat (rewrite py_format_literal by discriminate).
  change ("" ++ (path ++ ".json")) with (path ++ ".json").
  rewrite Hf. reflexivity.
Qed.
End Failures.

(** X9: a failing response whose body is a dict without [errors] does
    not produce a library error: [fetch] raises [KeyError('errors')],
    which an [except NytCampfinError] clause lets through. *)
Theorem failing_response_without_errors `{Runtime} (self : Client.t)
    (path : string) (args : list pyval) (kwargs : gmap string kwval)
    (resp : response) (d : list (string * pyval)) :
  answered_with (Client.fetch self path args kwargs) resp ->
  status_code resp <> 200 ->
  status_code resp <> 304 ->
  json resp = PDict d ->
  assoc_lookup "errors" d = None ->
  result_of (Client.fetch self path args kwargs) = Raise (KeyError (PStr "errors"))
  /\ forall h : exn -> outcome pyval,
       try_except (result_of (Client.fetch self path args kwargs)) C_NytCampfinError h
       = Raise (KeyError (PStr "errors")).
Proof.
  intros Hans H200 H304 Hbody Herr.
  destruct (fetch_answered _ _ _ _ _ Hans) as (off & u & _ & _ & _ & Hr).
  rewrite Hr, answer_failure by assumption.
  unfold error_message. rewrite Hbody, (getitem_missing _ _ Herr).
  split; reflexivity.
Qed.

Lemma failing_response_without_errors_witness :
  let R := mock_runtime false bare_error_response in
  result_of (Client.fetch mock_client "/%s/filings" [PInt 2012] (listing_kwargs (PInt 0)))
  = Raise (KeyError (PStr "errors"))
  /\ forall h : exn -> outcome pyval,
       try_except
         (result_of (Client.fetch mock_client "/%s/filings" [PInt 2012]
                       (listing_kwargs (PInt 0))))
         C_NytCampfinError h
       = Raise (KeyError (PStr "errors")).
Proof.
  intro R.
  apply (failing_response_without_errors (H := R) mock_client "/%s/filings"
           [PInt 2012] (listing_kwargs (PInt 0)) bare_error_response
           [("status", PStr "ERROR")]).
  - eexists. split; vm_compute; reflexivity.
  - vm_compute. discriminate.
  - vm_compute. discriminate.
  - reflexivity.
  - reflexivity.
Defined.

(** X11: an exception of the transport is not handled: [fetch] raises
    it as it is. *)
Theorem transport_error_propagates `{Runtime} (self : Client.t) (path : string)
    (args : list pyval) (kwargs : gmap string kwval) (req : request) (e : exn) :
  sent_by (Client.fetch self path args kwargs) = [req] ->
  requests_get (url req) (params req) = Raise e ->
  result_of (Client.fetch self path args kwargs) = Raise e.
Proof.
  intros Hsent Hget.
  destruct (fetch_run self path args kwargs)
    as [[Hnil _]|(off & u & _ & _ & Hs & Hr)].
  - rewrite Hnil in Hsent. discriminate.
  - rewrite Hs in Hsent. injection Hsent as <-. cbn in Hget.
    rewrite Hr, Hget. reflexivity.
Qed.

Lemma transport_error_propagates_witness :
  let R := broken_runtime false (OtherError "ConnectionError") in
  result_of (Client.fetch mock_client "/%s/filings" [PInt 2012] (listing_kwargs (PInt 0)))
  = Raise (OtherError "ConnectionError").
Proof.
  intro R.
  apply (transport_error_propagates (H := R) mock_client "/%s/filings" [PInt 2012]
           (listing_kwargs (PInt 0))
           {| url := "http://api.nytimes.com/svc/elections/us/v3/finances/2012/filings.json";
              params := <["api-key" := KVal (PStr "KEY")]> (offset_only (PInt 0)) |}).
  - vm_compute. reflexivity.
  - reflexivity.
Defined.

(** X12: when the path is a template of [%s] placeholders and the number
    of positional arguments differs from the number of placeholders, the
    call sends nothing and raises: [TypeError] from the formatting when
    [offset] is among the keyword arguments, and [KeyError('offset')],
    raised before the formatting is reached, when it is not. *)
Theorem wrong_argument_count_sends_nothing `{Runtime} (self : Client.t)
    (path : string) (args : list pyval) (kwargs : gmap string kwval) (n : nat) :
  startswith (lower path) Client.BASE_URI = false ->
  placeholders path = Some n ->
  length args <> n ->
  run (Client.fetch self path args kwargs)
  = (Raise match kwargs !! "offset" with
           | Some _ => TypeError
           | None => KeyError (PStr "offset")
           end, []).
Proof.
  intros Hpre Hp Hn. unfold run.
  destruct (kwargs !! "offset") as [off|] eqn:Hoff.
  - rewrite (fetch_stages _ _ _ _ off) by assumption.
    now rewrite (url_of_wrong_count _ _ _ Hpre Hp Hn).
  - now rewrite fetch_without_offset by assumption.
Qed.

Lemma wrong_argument_count_sends_nothing_witness :
  let R := mock_runtime false two_candidates_response in
  run (Client.fetch mock_client "/%s/filings/%s/%s/%s" [PInt 2012; PInt 2012; PInt 7]
         (listing_kwargs (PInt 0)))
  = (Raise TypeError, [])
  /\ run (Client.fetch mock_client "/%s/filings/%s/%s/%s" [PInt 2012; PInt 2012; PInt 7] ∅)
     = (Raise (KeyError (PStr "offset")), []).
Proof.
  intro R. split.
  - refine (eq_trans
      (wrong_argument_count_sends_nothing (H := R) mock_client "/%s/filings/%s/%s/%s"
         [PInt 2012; PInt 2012; PInt 7] (listing_kwargs (PInt 0)) 4 _ _ _) _).
    + reflexivity.
    + reflexivity.
    + vm_compute. discriminate.
    + vm_compute. reflexivity.
  - refine (eq_trans
      (wrong_argument_count_sends_nothing (H := R) mock_client "/%s/filings/%s/%s/%s"
         [PInt 2012; PInt 2012; PInt 7] ∅ 4 _ _ _) _).
    + reflexivity.
    + reflexivity.
    + vm_compute. discriminate.
    + vm_compute. reflexivity.
Defined.

(** X15: an [except NytNotFoundError] clause catches the error of a 404
    response and no other: on any other failing status the
    [NytCampfinError] passes through it. *)
Theorem not_found_handler_is_selective `{Runtime} (self : Client.t)
    (path : string) (args : list pyval) (kwargs : gmap string kwval)
    (resp : response) (msg : string) (h : exn -> outcome pyval) :
  answered_with (Client.fetch self path args kwargs) resp ->
  status_code resp <> 200 ->
  status_code resp <> 304 ->
  error_message (json resp) = Return msg ->
  try_except (result_of (Client.fetch self path args kwargs)) C_NytNotFoundError h
  = if (status_code resp =? 404)%Z then h (NytNotFoundError msg)
    else Raise (NytCampfinError msg).
Proof.
  intros Hans H200 H304 Hmsg.
  destruct (fetch_answered _ _ _ _ _ Hans) as (off & u & _ & _ & _ & Hr).
  rewrite Hr, answer_failure, Hmsg by assumption. cbn.
  now destruct (status_code resp =? 404)%Z.
Qed.

Lemma not_found_handler_is_selective_witness :
  let R := mock_runtime false server_error_response in
  try_except
    (result_of (Client.fetch mock_client "/%s/filings" [PInt 2012] (listing_kwargs (PInt 0))))
    C_NytNotFoundError (fun _ => Return PNone)
  = Raise (NytCampfinError "server error; retry later").
Proof.
  intro R.
  apply (not_found_handler_is_selective (H := R) mock_client "/%s/filings" [PInt 2012]
           (listing_kwargs (PInt 0)) server_error_response
           "server error; retry later" (fun _ => Return PNone)).
  - eexists. split; vm_compute; reflexivity.
  - vm_compute. discriminate.
  - vm_compute. discriminate.
  - reflexivity.
Defined.

(** X16: when [errors] is a single string instead of a list of strings,
    the message is made of its characters, joined by ["; "]. *)
Theorem string_errors_joined_by_character `{Runtime} (self : Client.t)
    (path : string) (args : list pyval) (kwargs : gmap string kwval)
    (resp : response) (s : string) :
  answered_with (Client.fetch self path args kwargs) resp ->
  status_code resp <> 200 ->
  status_code resp <> 304 ->
  py_getitem (json resp) (PStr "errors") = Return (PStr s) ->
  result_of (Client.fetch self path args kwargs)
  = Raise (if (status_code resp =? 404)%Z
           then NytNotFoundError (String.concat "; " (chars s))
           else NytCampfinError (String.concat "; " (chars s))).
Proof.
  intros Hans H200 H304 Herr.
  destruct (fetch_answered _ _ _ _ _ Hans) as (off & u & _ & _ & _ & Hr).
  rewrite Hr, answer_failure by assumption.
  unfold error_message. rewrite Herr. cbn.
  unfold py_join. rewrite all_strings_map_PStr. reflexivity.
Qed.

Lemma string_errors_joined_by_character_witness :
  let R := mock_runtime false string_error_response in
  result_of (Client.fetch mock_client "/%s/filings" [PInt 2012] (listing_kwargs (PInt 0)))
  = Raise (NytCampfinError "d; o; w; n").
Proof.
  intro R.
  apply (string_errors_joined_by_character (H := R) mock_client "/%s/filings"
           [PInt 2012] (listing_kwargs (PInt 0)) string_error_response "down").
  - eexists. split; vm_compute; reflexivity.
  - vm_compute. discriminate.
  - vm_compute. discriminate.
  - reflexivity.
Defined.

(** X17: an entry of [errors] that is not a string makes the join fail:
    [fetch] raises [TypeError] instead of a library error. *)
Theorem non_string_error_raises_TypeError `{Runtime} (self : Client.t)
    (path : string) (args : list pyval) (kwargs : gmap string kwval)
    (resp : response) (pre : list string) (v : pyval) (rest : list pyval) :
  answered_with (Client.fetch self path args kwargs) resp ->
  status_code resp <> 200 ->
  status_code resp <> 304 ->
  py_getitem (json resp) (PStr "errors") = Return (PList (map PStr pre ++ v :: rest)) ->
  (forall s, v <> PStr s) ->
  result_of (Client.fetch self path args kwargs) = Raise TypeError.
Proof.
  intros Hans H200 H304 Herr Hv.
  destruct (fetch_answered _ _ _ _ _ Hans) as (off & u & _ & _ & _ & Hr).
  rewrite Hr, answer_failure by assumption.
  unfold error_message. rewrite Herr. cbn.
  unfold py_join. now rewrite all_strings_non_string.
Qed.

Lemma non_string_error_raises_TypeError_witness :
  let R := mock_runtime false numeric_error_response in
  result_of (Client.fetch mock_client "/%s/filings" [PInt 2012] (listing_kwargs (PInt 0)))
  = Raise TypeError.
Proof.
  intro R.
  apply (non_string_error_raises_TypeError (H := R) mock_client "/%s/filings"
           [PInt 2012] (listing_kwargs (PInt 0)) numeric_error_response
           ["quota"] (PInt 429) []).
  - eexists. split; vm_compute; reflexivity.
  - vm_compute. discriminate.
  - vm_compute. discriminate.
  - reflexivity.
  - intros s. discriminate.
Defined.

(** ** Paths of the endpoint methods *)

Lemma append_nil_l (s : string) : "" ++ s = s.
Proof. reflexivity. Qed.

Lemma append_nil_r (s : string) : s ++ "" = s.
Proof. induction s as [|c s IH]; [reflexivity|]. rewrite append_cons. now f_equal. Qed.

(** X13: [seats] with a district but no chamber still takes the template
    with both segments, and the missing chamber is rendered as the text
    [None]: [seats(state, district=d)] requests
    [/2012/seats/<state>/None/<d>.json]. *)
Theorem seats_district_without_chamber `{Runtime} (key : pyval)
    (state district : string) :
  district <> "" ->
  map url (sent_by (invoke (NytCampfin.init key)
                      (candidates_seats (PStr state) None (Some (PStr district))
                         None None)))
  = [Client.BASE_URI ++ "/2012/seats/" ++ state ++ "/None/" ++ district ++ ".json"].
Proof.
  intros Hd. rewrite invoke_sent. cbn [map url]. f_equal. f_equal.
  assert (Ht : py_truthy (PStr district) = true).
  { cbn. apply negb_true_iff. now apply String.eqb_neq. }
  unfold endpoint_path, arg_or, default, id. rewrite Ht. cbn [fst snd map].
  change (py_str (PStr state)) with state.
  change (py_str (PStr district)) with district.
  change (py_str PNone) with "None".
  change (py_str CURRENT_CYCLE) with "2012".
  cbn [substitute].
  repeat (rewrite append_nil_l || rewrite append_cons || rewrite append_assoc
          || rewrite append_nil_r).
  reflexivity.
Qed.

Lemma seats_district_without_chamber_witness :
  let R := mock_runtime false two_candidates_response in
  map url (sent_by (invoke (NytCampfin.init (PStr "KEY"))
                      (candidates_seats (PStr "NY") None (Some (PStr "3")) None None)))
  = ["http://api.nytimes.com/svc/elections/us/v3/finances/2012/seats/NY/None/3.json"].
Proof.
  intro R.
  apply (seats_district_without_chamber (H := R) (PStr "KEY") "NY" "3").
  discriminate.
Defined.

(** X18: when the caller leaves [cycle] out, the path of every endpoint
    method starts with the current cycle: the URL begins with the base URI
    followed by [/2012/]. *)
Theorem omitted_cycle_is_current_cycle `{Runtime} (key : pyval)
    (c : endpoint_call) (req : request) :
  endpoint_cycle c = None ->
  In req (sent_by (invoke (NytCampfin.init key) c)) ->
  startswith (url req) (Client.BASE_URI ++ "/2012/") = true.
Proof.
  intros Hc. rewrite invoke_sent. intros [<-|[]]. cbn [url].
  destruct c; cbn [endpoint_cycle] in Hc; subst; cbn [endpoint_path];
    try (destruct (py_truthy (arg_or PNone district));
         [|destruct (py_truthy (arg_or PNone chamber))]);
    vm_compute; reflexivity.
Qed.

Lemma omitted_cycle_is_current_cycle_witness :
  let R := mock_runtime false two_candidates_response in
  startswith
    "http://api.nytimes.com/svc/elections/us/v3/finances/2012/committees/C00000000/filings.json"
    (Client.BASE_URI ++ "/2012/") = true.
Proof.
  intro R.
  apply (omitted_cycle_is_current_cycle (H := R) (PStr "KEY")
           (committees_filings (PStr "C00000000") None (Some (PInt 20)))
           {| url := "http://api.nytimes.com/svc/elections/us/v3/finances/2012/committees/C00000000/filings.json";
              params := <["api-key" := KVal (PStr "KEY")]> (offset_only (PInt 20)) |}).
  - reflexivity.
  - left. vm_compute. reflexivity.
Defined.
